(** * BankAccount: a shallow embedding of [data_structures/bank_account.py]

    The class keeps an account number and a balance and offers
    [deposit], [withdraw], [check_balance], [get_account_number] and
    [__repr__].  The balance and the amounts are Python numbers: the
    annotations say [float], the demonstration at the end of the module
    passes [int]s, and Python keeps whichever it is given.  Both kinds are
    modelled, with Python's rules for mixing them:

    - [int] is unbounded ([Z]); [float] is IEEE-754 binary64 (the kernel's
      primitive [float]);
    - arithmetic between an [int] and a [float] first converts the [int]
      (correctly rounded, [OverflowError] when it is too large);
    - comparisons between an [int] and a [float] are exact and never raise;
    - the format specification [.2f] converts an [int] to [float] first.

    Methods run in a small monad carrying the object, the lines printed so
    far, and either a return value or a raised exception. *)

From Stdlib Require Import ZArith Lia Bool List String Ascii Floats DecimalString.
Import ListNotations.

Local Open Scope string_scope.
Local Open Scope Z_scope.

(** ** Exceptions and outcomes *)

Inductive exn : Type :=
| ValueError (msg : string)
| OverflowError (msg : string).

Inductive outcome (A : Type) : Type :=
| Return (a : A)
| Raise (e : exn).

Arguments Return {A} a.
Arguments Raise {A} e.

Definition obind {A B : Type} (o : outcome A) (k : A -> outcome B) : outcome B :=
  match o with
  | Return a => k a
  | Raise e => Raise e
  end.

(** ** Python numbers *)

Inductive num : Type :=
| PyInt (z : Z)
| PyFloat (f : float).

(** [float(z)] for an [int]: round to nearest, ties to even; an [int] that
    rounds beyond the largest finite double raises [OverflowError]. *)
Definition long_as_double (z : Z) : outcome float :=
  match binary_normalize prec emax z 0 false with
  | S754_infinity _ => Raise (OverflowError "int too large to convert to float")
  | sf => Return (SF2Prim sf)
  end.

Definition as_double (n : num) : outcome float :=
  match n with
  | PyInt z => long_as_double z
  | PyFloat f => Return f
  end.

(** [a + b] and [a - b]. *)
Definition py_add (a b : num) : outcome num :=
  match a, b with
  | PyInt x, PyInt y => Return (PyInt (x + y))
  | _, _ =>
      obind (as_double a) (fun x =>
      obind (as_double b) (fun y => Return (PyFloat (x + y)%float)))
  end.

Definition py_sub (a b : num) : outcome num :=
  match a, b with
  | PyInt x, PyInt y => Return (PyInt (x - y))
  | _, _ =>
      obind (as_double a) (fun x =>
      obind (as_double b) (fun y => Return (PyFloat (x - y)%float)))
  end.

(** Comparison of two doubles; [None] when one of them is NaN. *)
Definition float_cmp (x y : float) : option comparison :=
  match (x ?= y)%float with
  | FEq => Some Eq
  | FLt => Some Lt
  | FGt => Some Gt
  | FNotComparable => None
  end.

(** Comparison of an [int] with a [float]: on the exact values. *)
Definition Z_cmp_float (z : Z) (f : float) : option comparison :=
  match Prim2SF f with
  | S754_nan => None
  | S754_infinity s => Some (if s then Gt else Lt)
  | S754_zero _ => Some (z ?= 0)
  | S754_finite s m e =>
      let v := cond_Zopp s (Zpos m) in
      Some (if 0 <=? e then z ?= v * 2 ^ e else z * 2 ^ (- e) ?= v)
  end.

Definition py_cmp (a b : num) : option comparison :=
  match a, b with
  | PyInt x, PyInt y => Some (x ?= y)
  | PyFloat x, PyFloat y => float_cmp x y
  | PyInt x, PyFloat y => Z_cmp_float x y
  | PyFloat x, PyInt y => option_map CompOpp (Z_cmp_float y x)
  end.

(** [a < b], [a <= b], [a > b], [a >= b]: all false on NaN. *)
Definition py_lt (a b : num) : bool :=
  match py_cmp a b with Some Lt => true | _ => false end.
Definition py_le (a b : num) : bool :=
  match py_cmp a b with Some (Lt | Eq) => true | _ => false end.
Definition py_gt (a b : num) : bool :=
  match py_cmp a b with Some Gt => true | _ => false end.
Definition py_ge (a b : num) : bool :=
  match py_cmp a b with Some (Gt | Eq) => true | _ => false end.

(** ** Formatting *)

Definition dec (n : Z) : string := NilZero.string_of_uint (N.to_uint (Z.to_N n)).

(** [n / d] rounded to the nearest integer, ties to even ([0 <= n], [0 < d]). *)
Definition round_half_even (n d : Z) : Z :=
  let q := n / d in
  match 2 * (n mod d) ?= d with
  | Lt => q
  | Gt => q + 1
  | Eq => if Z.even q then q else q + 1
  end.

(** The magnitude [m * 2^e], in hundredths, correctly rounded. *)
Definition hundredths (m : positive) (e : Z) : Z :=
  if 0 <=? e then Zpos m * 2 ^ e * 100
  else round_half_even (Zpos m * 100) (2 ^ (- e)).

Definition fixed2 (h : Z) : string :=
  dec (h / 100) ++ "." ++ dec (h mod 100 / 10) ++ dec (h mod 10).

Definition sign_str (s : bool) : string := if s then "-" else "".

(** [format(f, ".2f")] for a double. *)
Definition float_2f (f : float) : string :=
  match Prim2SF f with
  | S754_nan => "nan"
  | S754_infinity s => sign_str s ++ "inf"
  | S754_zero s => sign_str s ++ "0.00"
  | S754_finite s m e => sign_str s ++ fixed2 (hundredths m e)
  end.

(** [format(n, ".2f")]: an [int] is converted with [float(n)] first. *)
Definition format_2f (n : num) : outcome string :=
  obind (as_double n) (fun f => Return (float_2f f)).

(** ** Objects that can be passed as an account number

    [isinstance(x, int)] holds of [int]s and of [bool]s ([bool] is a
    subclass of [int]); any other object is kept only through its [str()]. *)
Inductive pyobj : Type :=
| ObjInt (z : Z)
| ObjBool (b : bool)
| ObjOther (str : string).

Definition isinstance_int (o : pyobj) : bool :=
  match o with
  | ObjInt _ | ObjBool _ => true
  | ObjOther _ => false
  end.

(** The value an [int] instance compares with. *)
Definition int_value (o : pyobj) : Z :=
  match o with
  | ObjInt z => z
  | ObjBool b => if b then 1 else 0
  | ObjOther _ => 0
  end.

Definition py_str (o : pyobj) : string :=
  match o with
  | ObjInt z => NilZero.string_of_int (Z.to_int z)
  | ObjBool b => if b then "True" else "False"
  | ObjOther s => s
  end.

(** ** The class *)

Record BankAccount : Type := {
  __account_number : pyobj;
  balance : num
}.

Definition __init__ (account_number : pyobj) (balance : num) : outcome BankAccount :=
  if negb (isinstance_int account_number) || (int_value account_number <=? 0) then
    Raise (ValueError "Account number must be a positive integer")
  else if py_lt balance (PyInt 0) then
    Raise (ValueError "Initial balance cannot be negative")
  else
    Return {| __account_number := account_number; balance := balance |}.

(** *** Methods: object, printed lines, value or exception *)

Record world : Type := {
  self : BankAccount;
  stdout : list string
}.

Definition M (A : Type) : Type := world -> outcome A * world.

Definition ret {A : Type} (a : A) : M A := fun w => (Return a, w).

Definition bind {A B : Type} (m : M A) (k : A -> M B) : M B :=
  fun w =>
    match m w with
    | (Return a, w') => k a w'
    | (Raise e, w') => (Raise e, w')
    end.

Definition lift {A : Type} (o : outcome A) : M A := fun w => (o, w).

Definition print (line : string) : M unit :=
  fun w => (Return tt, {| self := self w; stdout := (stdout w ++ [line])%list |}).

Definition get_self : M BankAccount := fun w => (Return (self w), w).

Definition set_balance (b : num) : M unit :=
  fun w => (Return tt,
            {| self := {| __account_number := __account_number (self w); balance := b |};
               stdout := stdout w |}).

Declare Scope py_scope.
Delimit Scope py_scope with py.
Notation "x <- m ;; k" := (bind m (fun x => k))
  (at level 100, m at next level, right associativity) : py_scope.
Notation "m ;; k" := (bind m (fun _ => k))
  (at level 100, right associativity) : py_scope.

Local Open Scope py_scope.

Definition check_balance : M unit :=
  s <- get_self ;;
  print ("Your account number is: " ++ py_str (__account_number s)) ;;
  b <- lift (format_2f (balance s)) ;;
  print ("Your available balance is: " ++ b).

Definition deposit (amount : num) : M bool :=
  if py_le amount (PyInt 0) then
    print "Error: Deposit amount must be positive" ;;
    ret false
  else
    s <- get_self ;;
    b <- lift (py_add (balance s) amount) ;;
    set_balance b ;;
    a <- lift (format_2f amount) ;;
    print ("Successfully deposited: " ++ a) ;;
    ret true.

Definition withdraw (amount : num) : M bool :=
  if py_le amount (PyInt 0) then
    print "Error: Withdrawal amount must be positive" ;;
    ret false
  else
    s <- get_self ;;
    if py_gt amount (balance s) then
      b <- lift (format_2f (balance s)) ;;
      print ("Error: Insufficient funds. Available balance: " ++ b) ;;
      ret false
    else
      b <- lift (py_sub (balance s) amount) ;;
      set_balance b ;;
      a <- lift (format_2f amount) ;;
      print ("Successfully withdrew: " ++ a) ;;
      ret true.

Definition get_account_number : M pyobj :=
  s <- get_self ;;
  ret (__account_number s).

Definition __repr__ : M string :=
  s <- get_self ;;
  b <- lift (format_2f (balance s)) ;;
  ret ("BankAccount(account_number=" ++ py_str (__account_number s)
       ++ ", balance=" ++ b ++ ")").

(** *** Sequences of calls on one object *)

Inductive call : Type :=
| Deposit (amount : num)
| Withdraw (amount : num)
| CheckBalance
| GetAccountNumber
| Repr.

Inductive value : Type :=
| VNone
| VBool (b : bool)
| VObj (o : pyobj)
| VStr (s : string).

Definition invoke (c : call) : M value :=
  match c with
  | Deposit amount => b <- deposit amount ;; ret (VBool b)
  | Withdraw amount => b <- withdraw amount ;; ret (VBool b)
  | CheckBalance => check_balance ;; ret VNone
  | GetAccountNumber => o <- get_account_number ;; ret (VObj o)
  | Repr => s <- __repr__ ;; ret (VStr s)
  end.

(** The caller goes on with the same object whether the call returned or
    raised. *)
Definition step (w : world) (c : call) : world := snd (invoke c w).

Definition run (cs : list call) (w : world) : world := fold_left step cs w.

Definition is_inquiry (c : call) : bool :=
  match c with
  | CheckBalance | GetAccountNumber | Repr => true
  | Deposit _ | Withdraw _ => false
  end.

Definition fresh (acc : BankAccount) : world := {| self := acc; stdout := [] |}.

(** Accounts a caller can hold: built by the constructor, then used through
    the methods. *)
Inductive reachable : BankAccount -> Prop :=
| reachable_init : forall a b acc,
    __init__ a b = Return acc -> reachable acc
| reachable_step : forall acc out c,
    reachable acc -> reachable (self (step {| self := acc; stdout := out |} c)).

(** ** Predicates used in the statements *)

(** [isinstance(o, int) and o > 0]. *)
Definition is_positive_int (o : pyobj) : bool :=
  isinstance_int o && (0 <? int_value o).

(** What the constructor checks: the account number is a positive [int] and
    the balance is not negative. *)
Definition valid (acc : BankAccount) : Prop :=
  is_positive_int (__account_number acc) = true /\
  py_lt (balance acc) (PyInt 0) = false.

(** The zero of the kind of [n]: [0] or [0.0]. *)
Definition zero_like (n : num) : num :=
  match n with
  | PyInt _ => PyInt 0
  | PyFloat _ => PyFloat zero
  end.

(** ** Doubles through their specification

    The sign and the magnitude of a double, read on [Prim2SF]. *)

(** Not below zero: zeros, positive numbers, [+inf] and NaN. *)
Definition sf_not_neg (sf : spec_float) : bool :=
  match sf with
  | S754_infinity true | S754_finite true _ _ => false
  | _ => true
  end.

(** Above zero, or NaN: what passes the test [amount <= 0]. *)
Definition positive_or_nan (sf : spec_float) : bool :=
  match sf with
  | S754_nan | S754_infinity false | S754_finite false _ _ => true
  | _ => false
  end.

(** The weight of the exponent [e], in units of the smallest subnormal
    [2^-1074]; the magnitude [m * 2^e] of a finite double in these units. *)
Definition weight (e : Z) : Z := 2 ^ (e + 1074).

Definition mag (m : positive) (e : Z) : Z := Z.pos m * weight e.

(** [(mf, ef)] is a double that no double separates from the integer [z]. *)
Definition faithful (z : Z) (mf : positive) (ef : Z) : Prop :=
  bounded prec emax mf ef = true /\
  (forall m e, bounded prec emax m e = true ->
               mag m e <= z * weight 0 -> mag m e <= mag mf ef) /\
  (forall m e, bounded prec emax m e = true ->
               z * weight 0 <= mag m e -> mag mf ef <= mag m e).

(** [y] is not above [x], for [y] positive or NaN and [x] not negative. *)
Definition not_above (y x : spec_float) : Prop :=
  match y, x with
  | S754_finite false my ey, S754_finite false mx ex => mag my ey <= mag mx ex
  | S754_finite false _ _, S754_zero _ => False
  | S754_infinity false, S754_zero _ => False
  | S754_infinity false, S754_finite _ _ _ => False
  | _, _ => True
  end.

(** The shift register of the rounding, [k] shifts after it was loaded with
    [m0]: the quotient, and no bit lost when the division is exact. *)
Definition shifted (m0 k : Z) (mrs : shr_record) : Prop :=
  shr_m mrs = m0 / 2 ^ k /\
  (m0 mod 2 ^ k = 0 -> shr_r mrs = false /\ shr_s mrs = false).

(** ** Further definitions: default arguments, sizes, the demonstration *)

(** [BankAccount(account_number)] and [BankAccount(account_number, balance)]:
    the parameter [balance] defaults to [0.0]. *)
Definition construct (account_number : pyobj) (balance : option num) : outcome BankAccount :=
  __init__ account_number
    match balance with
    | Some b => b
    | None => PyFloat zero
    end.


Definition is_float (n : num) : bool :=
  match n with
  | PyInt _ => false
  | PyFloat _ => true
  end.

Definition int_amount (c : call) : bool :=
  match c with
  | Deposit (PyFloat _) | Withdraw (PyFloat _) => false
  | _ => true
  end.

(** The block under [if __name__ == "__main__"]: what it raises, if
    anything, and the lines it prints. *)
Definition main : outcome unit * list string :=
  let header := "=== BankAccount OOP Example ===" in
  match construct (ObjInt 281207) (Some (PyInt 27000)) with
  | Raise e => (Raise e, [header])
  | Return account =>
      let body :=
        check_balance ;; print "" ;;
        deposit (PyInt 5000) ;; print "" ;;
        withdraw (PyInt 2000) ;; print "" ;;
        check_balance ;; print "" ;;
        s <- __repr__ ;; print s in
      let '(r, w) := body {| self := account; stdout := [header] |} in
      (r, stdout w)
  end.


(** ** The demonstration at the end of the module *)

Example demo_scenario :
  exists acc,
    __init__ (ObjInt 281207) (PyInt 27000) = Return acc /\
    run [CheckBalance; Deposit (PyInt 5000); Withdraw (PyInt 2000); CheckBalance]
        (fresh acc)
    = {| self := {| __account_number := ObjInt 281207; balance := PyInt 30000 |};
         stdout := [ "Your account number is: 281207";
                     "Your available balance is: 27000.00";
                     "Successfully deposited: 5000.00";
                     "Successfully withdrew: 2000.00";
                     "Your account number is: 281207";
                     "Your available balance is: 30000.00" ] |}.
Proof. eexists. split; [reflexivity | vm_compute; reflexivity]. Qed.

Example main_output :
  main = (Return tt,
          [ "=== BankAccount OOP Example ===";
            "Your account number is: 281207";
            "Your available balance is: 27000.00";
            "";
            "Successfully deposited: 5000.00";
            "";
            "Successfully withdrew: 2000.00";
            "";
            "Your account number is: 281207";
            "Your available balance is: 30000.00";
            "";
            "BankAccount(account_number=281207, balance=30000.00)" ]).
Proof. vm_compute. reflexivity. Qed.

(** ** Symbolic execution of the methods *)

Ltac simpl_world :=
  cbn [self stdout balance __account_number fst snd].

Ltac run_method :=
  unfold deposit, withdraw, check_balance, get_account_number, __repr__,
    bind, ret, lift, print, get_self, set_balance; simpl_world.

Lemma init_guard (o : pyobj) :
  negb (isinstance_int o) || (int_value o <=? 0) = negb (is_positive_int o).
Proof.
  unfold is_positive_int.
  destruct (isinstance_int o); cbn; [ | reflexivity].
  rewrite Z.leb_antisym. reflexivity.
Qed.

Lemma py_gt_not_le (a b : num) : py_gt a b = true -> py_le a b = false.
Proof. unfold py_gt, py_le. destruct (py_cmp a b) as [[ | | ] | ]; congruence. Qed.

Lemma py_le_not_gt (a b : num) : py_le a b = true -> py_gt a b = false.
Proof. unfold py_gt, py_le. destruct (py_cmp a b) as [[ | | ] | ]; congruence. Qed.

(** ** Deposits and withdrawals that go through *)

(** C2, as the code has it: a deposit of an amount [> 0] returns [True]
    and leaves [balance + amount] (Python's [+]: exact on two [int]s, IEEE-754
    on [float]s) in the balance, whenever Python can evaluate that sum and
    format the amount, that is, whenever no [int] too large for a [float] has
    to be converted. *)
Theorem deposit_success (acc : BankAccount) (out : list string) (amount b' : num) (s : string) :
  py_gt amount (PyInt 0) = true ->
  py_add (balance acc) amount = Return b' ->
  format_2f amount = Return s ->
  deposit amount {| self := acc; stdout := out |}
  = (Return true,
     {| self := {| __account_number := __account_number acc; balance := b' |};
        stdout := (out ++ [("Successfully deposited: " ++ s)%string])%list |}).
Proof.
  intros Hpos Hadd Hfmt. run_method.
  rewrite (py_gt_not_le _ _ Hpos). simpl_world.
  rewrite Hadd, Hfmt. reflexivity.
Qed.

Lemma deposit_success_witness :
  deposit (PyFloat 0.5) {| self := {| __account_number := ObjInt 7; balance := PyInt 2 |};
                           stdout := [] |}
  = (Return true,
     {| self := {| __account_number := ObjInt 7; balance := PyFloat 2.5 |};
        stdout := ["Successfully deposited: 0.50"] |}).
Proof.
  apply (deposit_success {| __account_number := ObjInt 7; balance := PyInt 2 |} []
           (PyFloat 0.5) (PyFloat 2.5) "0.50"); vm_compute; reflexivity.
Defined.

(** C2 fails as stated: on an account holding the [int] [10**400], the
    deposit of [1.0] raises [OverflowError] at [self.balance += amount] and
    reports nothing. *)
Lemma deposit_overflow_counterexample :
  exists acc,
    __init__ (ObjInt 1) (PyInt (10 ^ 400)) = Return acc /\
    py_gt (PyFloat 1) (PyInt 0) = true /\
    deposit (PyFloat 1) (fresh acc)
    = (Raise (OverflowError "int too large to convert to float"), fresh acc) /\
    fst (deposit (PyFloat 1) (fresh acc)) <> Return true.
Proof.
  eexists. split; [reflexivity | ].
  split; [vm_compute; reflexivity | ].
  split; [vm_compute; reflexivity | ].
  vm_compute. discriminate.
Qed.

(** A withdrawal that passes both guards and whose arithmetic and formatting
    go through. *)
Lemma withdraw_goes_through
    (acc : BankAccount) (out : list string) (amount b' : num) (s : string) :
  py_le amount (PyInt 0) = false ->
  py_gt amount (balance acc) = false ->
  py_sub (balance acc) amount = Return b' ->
  format_2f amount = Return s ->
  withdraw amount {| self := acc; stdout := out |}
  = (Return true,
     {| self := {| __account_number := __account_number acc; balance := b' |};
        stdout := (out ++ [("Successfully withdrew: " ++ s)%string])%list |}).
Proof.
  intros Hpos Hle Hsub Hfmt. run_method.
  rewrite Hpos. simpl_world. rewrite Hle, Hsub, Hfmt. reflexivity.
Qed.

(** C1, as the code has it: a withdrawal with [0 < amount <= balance]
    returns [True] and leaves [balance - amount] (Python's [-]) in the
    balance, whenever Python can evaluate that difference and format the
    amount (no [int] too large for a [float] has to be converted). *)
Theorem withdraw_success (acc : BankAccount) (out : list string) (amount b' : num) (s : string) :
  py_gt amount (PyInt 0) = true ->
  py_le amount (balance acc) = true ->
  py_sub (balance acc) amount = Return b' ->
  format_2f amount = Return s ->
  withdraw amount {| self := acc; stdout := out |}
  = (Return true,
     {| self := {| __account_number := __account_number acc; balance := b' |};
        stdout := (out ++ [("Successfully withdrew: " ++ s)%string])%list |}).
Proof.
  intros Hpos Hle Hsub Hfmt.
  apply withdraw_goes_through; auto using py_gt_not_le, py_le_not_gt.
Qed.

Lemma withdraw_success_witness :
  withdraw (PyInt 2000)
    {| self := {| __account_number := ObjInt 281207; balance := PyFloat 32000 |};
       stdout := [] |}
  = (Return true,
     {| self := {| __account_number := ObjInt 281207; balance := PyFloat 30000 |};
        stdout := ["Successfully withdrew: 2000.00"] |}).
Proof.
  apply (withdraw_success {| __account_number := ObjInt 281207; balance := PyFloat 32000 |} []
           (PyInt 2000) (PyFloat 30000) "2000.00"); vm_compute; reflexivity.
Defined.

(** C1 fails as stated: on an account holding the [int] [10**400], the
    withdrawal of [1.0] (with [0 < 1.0 <= 10**400]) raises [OverflowError] at
    [self.balance -= amount]. *)
Lemma withdraw_overflow_counterexample :
  exists acc,
    __init__ (ObjInt 1) (PyInt (10 ^ 400)) = Return acc /\
    py_gt (PyFloat 1) (PyInt 0) = true /\
    py_le (PyFloat 1) (balance acc) = true /\
    withdraw (PyFloat 1) (fresh acc)
    = (Raise (OverflowError "int too large to convert to float"), fresh acc) /\
    fst (withdraw (PyFloat 1) (fresh acc)) <> Return true.
Proof.
  eexists. split; [reflexivity | ].
  split; [vm_compute; reflexivity | ].
  split; [vm_compute; reflexivity | ].
  split; [vm_compute; reflexivity | ].
  vm_compute. discriminate.
Qed.

(** ** Construction *)

(** The two checks of the constructor, in their order. *)
Lemma init_cases (account_number : pyobj) (initial : num) :
  __init__ account_number initial =
  if is_positive_int account_number then
    if py_lt initial (PyInt 0) then
      Raise (ValueError "Initial balance cannot be negative")
    else
      Return {| __account_number := account_number; balance := initial |}
  else
    Raise (ValueError "Account number must be a positive integer").
Proof.
  unfold __init__. rewrite init_guard.
  destruct (is_positive_int account_number); reflexivity.
Qed.

(** C3, as the code has it: construction succeeds exactly when the account
    number is an [int] instance with a value [> 0] and the initial balance is
    not negative ([balance < 0] is false, which a NaN balance also satisfies);
    the object then holds the two given values unchanged; in every other case
    [ValueError] is raised and there is no object. *)
Theorem init_spec (account_number : pyobj) (initial : num) :
  ((exists acc, __init__ account_number initial = Return acc) <->
   (is_positive_int account_number = true /\ py_lt initial (PyInt 0) = false)) /\
  (forall acc, __init__ account_number initial = Return acc ->
     __account_number acc = account_number /\ balance acc = initial) /\
  ((forall acc, __init__ account_number initial <> Return acc) ->
     exists msg, __init__ account_number initial = Raise (ValueError msg)).
Proof.
  rewrite init_cases.
  destruct (is_positive_int account_number);
    [destruct (py_lt initial (PyInt 0)) | ].
  - split; [split | split].
    + intros [acc H]. discriminate.
    + intros [_ H]. discriminate.
    + intros acc H. discriminate.
    + intros _. eexists. reflexivity.
  - split; [split | split].
    + intros _. split; reflexivity.
    + intros _. eexists. reflexivity.
    + intros acc H. injection H as <-. split; reflexivity.
    + intros H. exfalso. eapply H. reflexivity.
  - split; [split | split].
    + intros [acc H]. discriminate.
    + intros [H _]. discriminate.
    + intros acc H. discriminate.
    + intros _. eexists. reflexivity.
Qed.

(** C3 fails as stated: [BankAccount(1, float("nan"))] is built although
    [nan >= 0] is false. *)
Lemma init_nan_counterexample :
  ~ ((exists acc, __init__ (ObjInt 1) (PyFloat nan) = Return acc) <->
     (is_positive_int (ObjInt 1) = true /\ py_ge (PyFloat nan) (PyInt 0) = true)).
Proof.
  intros [H _].
  destruct H as [_ H]; [eexists; reflexivity | ].
  vm_compute in H. discriminate.
Qed.

(** C10: with an account number that is not a positive [int] and a negative
    initial balance, the error raised is the one about the account number. *)
Theorem init_checks_account_number_first (account_number : pyobj) (initial : num) :
  is_positive_int account_number = false ->
  py_lt initial (PyInt 0) = true ->
  __init__ account_number initial
  = Raise (ValueError "Account number must be a positive integer").
Proof.
  intros Hid _. rewrite init_cases, Hid. reflexivity.
Qed.

Lemma init_checks_account_number_first_witness :
  __init__ (ObjInt (-1)) (PyFloat (-10))
  = Raise (ValueError "Account number must be a positive integer").
Proof.
  apply (init_checks_account_number_first (ObjInt (-1)) (PyFloat (-10)));
    vm_compute; reflexivity.
Defined.

(** ** Refused amounts *)

(** C5: with [amount <= 0], [deposit] and [withdraw] both return [False]
    (they do not raise), print their error line and leave the object as it
    was. *)
Theorem nonpositive_amount_refused (acc : BankAccount) (out : list string) (amount : num) :
  py_le amount (PyInt 0) = true ->
  deposit amount {| self := acc; stdout := out |}
  = (Return false,
     {| self := acc; stdout := (out ++ ["Error: Deposit amount must be positive"])%list |})
  /\
  withdraw amount {| self := acc; stdout := out |}
  = (Return false,
     {| self := acc; stdout := (out ++ ["Error: Withdrawal amount must be positive"])%list |}).
Proof.
  intros Hle. run_method. rewrite Hle. split; reflexivity.
Qed.

Lemma nonpositive_amount_refused_witness :
  deposit (PyInt (-20)) {| self := {| __account_number := ObjInt 5; balance := PyFloat 0 |};
                           stdout := [] |}
  = (Return false,
     {| self := {| __account_number := ObjInt 5; balance := PyFloat 0 |};
        stdout := ["Error: Deposit amount must be positive"] |})
  /\
  withdraw (PyInt (-20)) {| self := {| __account_number := ObjInt 5; balance := PyFloat 0 |};
                            stdout := [] |}
  = (Return false,
     {| self := {| __account_number := ObjInt 5; balance := PyFloat 0 |};
        stdout := ["Error: Withdrawal amount must be positive"] |}).
Proof.
  apply (nonpositive_amount_refused {| __account_number := ObjInt 5; balance := PyFloat 0 |} []
           (PyInt (-20))).
  vm_compute. reflexivity.
Defined.

(** ** Frame properties *)

Lemma inquiry_keeps_self (c : call) (w : world) :
  is_inquiry c = true -> self (step w c) = self w.
Proof.
  destruct w as [acc out].
  destruct c; cbn [is_inquiry]; intros H; try discriminate; unfold step, invoke.
  - run_method. destruct (format_2f (balance acc)); reflexivity.
  - reflexivity.
  - run_method. destruct (format_2f (balance acc)); reflexivity.
Qed.

Lemma step_keeps_account_number (c : call) (w : world) :
  __account_number (self (step w c)) = __account_number (self w).
Proof.
  destruct w as [acc out].
  destruct c; unfold step, invoke.
  - run_method. destruct (py_le amount (PyInt 0)); simpl_world; [reflexivity | ].
    destruct (py_add (balance acc) amount); simpl_world; [ | reflexivity].
    destruct (format_2f amount); reflexivity.
  - run_method. destruct (py_le amount (PyInt 0)); simpl_world; [reflexivity | ].
    destruct (py_gt amount (balance acc)); simpl_world.
    + destruct (format_2f (balance acc)); reflexivity.
    + destruct (py_sub (balance acc) amount); simpl_world; [ | reflexivity].
      destruct (format_2f amount); reflexivity.
  - run_method. destruct (format_2f (balance acc)); reflexivity.
  - reflexivity.
  - run_method. destruct (format_2f (balance acc)); reflexivity.
Qed.

(** C7: [check_balance], [get_account_number] and [__repr__], called any
    number of times in any order, leave the account number and the balance as
    they were; and no sequence of calls of any of the five methods changes the
    account number. *)
Theorem inquiries_change_nothing :
  (forall (cs : list call) (w : world),
      forallb is_inquiry cs = true -> self (run cs w) = self w) /\
  (forall (cs : list call) (w : world),
      __account_number (self (run cs w)) = __account_number (self w)).
Proof.
  split.
  - induction cs as [ | c cs IH]; intros w H; [reflexivity | ].
    cbn [forallb] in H. apply andb_true_iff in H as [Hc Hcs].
    cbn [run fold_left]. fold (run cs (step w c)).
    rewrite (IH _ Hcs). apply inquiry_keeps_self, Hc.
  - induction cs as [ | c cs IH]; intros w; [reflexivity | ].
    cbn [run fold_left]. fold (run cs (step w c)).
    rewrite IH. apply step_keeps_account_number.
Qed.

(** ** The scenario of the specification *)

(** C8: [BankAccount(281207, 27000.0)] holds 27000.0; [deposit(5000)] returns
    [True] and leaves 32000.0; [withdraw(2000)] returns [True] and leaves
    30000.0; [withdraw(1000000)] returns [False] and leaves 30000.0;
    [get_account_number()] returns 281207 at every stage. *)
Theorem scenario :
  exists acc w1 w2 w3,
    __init__ (ObjInt 281207) (PyFloat 27000) = Return acc /\
    balance acc = PyFloat 27000 /\
    deposit (PyInt 5000) (fresh acc) = (Return true, w1) /\
    balance (self w1) = PyFloat 32000 /\
    withdraw (PyInt 2000) w1 = (Return true, w2) /\
    balance (self w2) = PyFloat 30000 /\
    withdraw (PyInt 1000000) w2 = (Return false, w3) /\
    balance (self w3) = PyFloat 30000 /\
    Forall (fun w => get_account_number w = (Return (ObjInt 281207), w))
           [fresh acc; w1; w2; w3].
Proof.
  do 4 eexists.
  split; [vm_compute; reflexivity | ].
  split; [reflexivity | ].
  split; [vm_compute; reflexivity | ].
  split; [reflexivity | ].
  split; [vm_compute; reflexivity | ].
  split; [reflexivity | ].
  split; [vm_compute; reflexivity | ].
  split; [reflexivity | ].
  repeat constructor.
Qed.

(** ** Signs of doubles *)

Lemma float_cmp_spec (x y : float) :
  float_cmp x y = SFcompare (Prim2SF x) (Prim2SF y).
Proof.
  unfold float_cmp. rewrite compare_spec.
  destruct (SFcompare (Prim2SF x) (Prim2SF y)) as [[ | | ] | ]; reflexivity.
Qed.

Lemma pow2_pos (e : Z) : 0 <= e -> 0 < 2 ^ e.
Proof. intros H. apply Z.pow_pos_nonneg; lia. Qed.

Lemma some_eq {A : Type} (a b : A) : Some a = Some b -> a = b.
Proof. congruence. Qed.

Lemma scaled_pos (m : positive) (e : Z) : 0 <= e -> 0 < Z.pos m * 2 ^ e.
Proof. intros H. apply Z.mul_pos_pos; [lia | apply pow2_pos, H]. Qed.

(** The comparison of the [int] [0] with a double only looks at its sign. *)
Lemma Z_cmp_float_zero (f : float) :
  Z_cmp_float 0 f =
  match Prim2SF f with
  | S754_nan => None
  | S754_zero _ => Some Eq
  | S754_infinity s | S754_finite s _ _ => Some (if s then Gt else Lt)
  end.
Proof.
  unfold Z_cmp_float. destruct (Prim2SF f) as [s | s | | s m e]; try reflexivity.
  cbv zeta. f_equal. destruct (Z.leb_spec 0 e) as [He | He].
  - pose proof (scaled_pos m e He) as Hp.
    destruct s; cbn [cond_Zopp].
    + apply Z.compare_gt_iff. change (Z.opp (Z.pos m)) with (- Z.pos m). lia.
    + apply Z.compare_lt_iff. lia.
  - destruct s; reflexivity.
Qed.

(** Turn a hypothesis on [Z.compare] into the order it states. *)
Ltac order_of H :=
  match type of H with
  | (?a ?= ?b) = Lt => change (a < b) in H
  | (?a ?= ?b) = Gt => change (a > b) in H
  | (?a ?= ?b) = Eq => apply Z.compare_eq in H
  end.

(** An [int] above a double that is not negative is positive. *)
Lemma Z_above_float (x : Z) (g : float) :
  Z_cmp_float x g = Some Gt -> Z_cmp_float 0 g <> Some Gt -> 0 < x.
Proof.
  rewrite Z_cmp_float_zero. unfold Z_cmp_float.
  destruct (Prim2SF g) as [s | s | | [ | ] m e]; try congruence.
  - intros H _. apply some_eq in H. order_of H. lia.
  - cbv zeta. cbn [cond_Zopp]. intros H _. apply some_eq in H.
    destruct (Z.leb_spec 0 e) as [He | He]; order_of H.
    + pose proof (scaled_pos m e He). lia.
    + pose proof (pow2_pos (- e) ltac:(lia)) as Hp.
      destruct (Z.le_gt_cases x 0) as [Hx | Hx]; [ | exact Hx].
      pose proof (Z.mul_nonpos_nonneg x (2 ^ (- e)) Hx ltac:(lia)). lia.
Qed.

(** A double above an [int] that is not negative is positive. *)
Lemma float_above_Z (y : Z) (f : float) :
  Z_cmp_float y f = Some Lt -> 0 <= y -> Z_cmp_float 0 f = Some Lt.
Proof.
  rewrite Z_cmp_float_zero. unfold Z_cmp_float.
  destruct (Prim2SF f) as [s | s | | [ | ] m e]; try congruence.
  - intros H Hy. exfalso. apply some_eq in H. order_of H. lia.
  - cbv zeta. cbn [cond_Zopp]. intros H Hy. exfalso. apply some_eq in H.
    destruct (Z.leb_spec 0 e) as [He | He]; order_of H.
    + pose proof (scaled_pos m e He). rewrite Z.mul_opp_l in H. lia.
    + pose proof (pow2_pos (- e) ltac:(lia)) as Hp.
      pose proof (Z.mul_nonneg_nonneg y (2 ^ (- e)) Hy ltac:(lia)). lia.
Qed.

(** An amount above a balance that is not negative is not [<= 0]. *)
Lemma above_nonnegative (a b : num) :
  py_lt b (PyInt 0) = false -> py_gt a b = true -> py_le a (PyInt 0) = false.
Proof.
  unfold py_lt, py_gt, py_le.
  destruct a as [x | f], b as [y | g]; cbn [py_cmp].
  - destruct (Z.compare_spec y 0), (Z.compare_spec x y), (Z.compare_spec x 0);
      intros; try congruence; lia.
  - intros Hb Ha.
    assert (0 < x) as Hx.
    { apply (Z_above_float x g).
      - destruct (Z_cmp_float x g) as [[ | | ] | ]; congruence.
      - intros E. rewrite E in Hb. discriminate. }
    apply Z.compare_gt_iff in Hx. rewrite Hx. reflexivity.
  - intros Hb Ha.
    rewrite (float_above_Z y f); [reflexivity | | ].
    + destruct (Z_cmp_float y f) as [[ | | ] | ]; cbn in Ha; congruence.
    + destruct (Z.compare_spec y 0); try congruence; lia.
  - rewrite !Z_cmp_float_zero, float_cmp_spec.
    destruct (Prim2SF f) as [s | s | | s m e], (Prim2SF g) as [s' | s' | | s' m' e'];
      cbn; try destruct s; try destruct s'; cbn; intros; congruence.
Qed.

(** ** Valid accounts *)

Lemma init_valid (a : pyobj) (b : num) (acc : BankAccount) :
  __init__ a b = Return acc -> valid acc.
Proof.
  rewrite init_cases.
  destruct (is_positive_int a) eqn:Ha; [ | discriminate].
  destruct (py_lt b (PyInt 0)) eqn:Hb; [discriminate | ].
  intros H. injection H as <-. split; assumption.
Qed.

(** ** Insufficient funds *)

(** C6, as the code has it: on a valid account, a withdrawal of more than
    the balance returns [False], leaves the object as it was and prints a
    line ending with the balance in [.2f] format, whenever that balance can be
    formatted (it is a [float], or an [int] that [float()] accepts). *)
Theorem insufficient_funds_refused
    (acc : BankAccount) (out : list string) (amount : num) (s : string) :
  valid acc ->
  py_gt amount (balance acc) = true ->
  format_2f (balance acc) = Return s ->
  withdraw amount {| self := acc; stdout := out |}
  = (Return false,
     {| self := acc;
        stdout := (out ++ [("Error: Insufficient funds. Available balance: " ++ s)%string])%list |}).
Proof.
  intros [_ Hb] Hgt Hfmt. run_method.
  rewrite (above_nonnegative _ _ Hb Hgt). simpl_world.
  rewrite Hgt, Hfmt. reflexivity.
Qed.

Lemma insufficient_funds_refused_witness :
  withdraw (PyInt 1000000)
    {| self := {| __account_number := ObjInt 281207; balance := PyFloat 30000 |};
       stdout := [] |}
  = (Return false,
     {| self := {| __account_number := ObjInt 281207; balance := PyFloat 30000 |};
        stdout := ["Error: Insufficient funds. Available balance: 30000.00"] |}).
Proof.
  apply (insufficient_funds_refused
           {| __account_number := ObjInt 281207; balance := PyFloat 30000 |} []
           (PyInt 1000000) "30000.00").
  - split; vm_compute; reflexivity.
  - vm_compute; reflexivity.
  - vm_compute; reflexivity.
Defined.

(** C6 fails as stated: on an account holding the [int] [10**400], the
    withdrawal of [10**401] raises [OverflowError] while formatting the
    balance for the error line; nothing is returned and nothing is printed. *)
Lemma insufficient_funds_overflow_counterexample :
  exists acc,
    __init__ (ObjInt 1) (PyInt (10 ^ 400)) = Return acc /\
    py_gt (PyInt (10 ^ 401)) (balance acc) = true /\
    withdraw (PyInt (10 ^ 401)) (fresh acc)
    = (Raise (OverflowError "int too large to convert to float"), fresh acc) /\
    fst (withdraw (PyInt (10 ^ 401)) (fresh acc)) <> Return false.
Proof.
  eexists. split; [reflexivity | ].
  split; [vm_compute; reflexivity | ].
  split; [vm_compute; reflexivity | ].
  vm_compute. discriminate.
Qed.

(** ** Doubles: rounding, magnitudes and signs

    What follows is read off [SpecFloat], the specification the kernel's
    doubles obey ([FloatAxioms]). *)

(** *** Signs of rounded results and of sums *)

Lemma py_lt_zero_float (f : float) :
  py_lt (PyFloat f) (PyInt 0) = negb (sf_not_neg (Prim2SF f)).
Proof.
  unfold py_lt. cbn [py_cmp]. rewrite Z_cmp_float_zero.
  destruct (Prim2SF f) as [s | [ | ] | | [ | ] m e]; reflexivity.
Qed.

(** Rounding keeps the sign it is given (or yields NaN). *)
Lemma binary_round_aux_not_neg (m e : Z) (l : location) :
  sf_not_neg (binary_round_aux prec emax false m e l) = true.
Proof.
  unfold binary_round_aux.
  destruct (shr_fexp prec emax m e l) as [mrs' e'].
  destruct (shr_fexp prec emax _ e' loc_Exact) as [mrs'' e''].
  destruct (shr_m mrs''); [reflexivity | | reflexivity].
  destruct (e'' <=? emax - prec); reflexivity.
Qed.

Lemma binary_normalize_not_neg (m e : Z) :
  0 <= m -> sf_not_neg (binary_normalize prec emax m e false) = true.
Proof.
  intros Hm. destruct m as [ | p | p]; [reflexivity | | lia].
  unfold binary_normalize, binary_round.
  destruct (shl_align p e _) as [mz ez]. apply binary_round_aux_not_neg.
Qed.

(** The sum of two doubles that are not negative is not negative. *)
Lemma SFadd_not_neg (x y : spec_float) :
  sf_not_neg x = true -> sf_not_neg y = true ->
  sf_not_neg (SFadd prec emax x y) = true.
Proof.
  destruct x as [sx | [ | ] | | [ | ] mx ex], y as [sy | [ | ] | | [ | ] my ey];
    cbn [sf_not_neg]; intros Hx Hy; try discriminate; try reflexivity;
    try (destruct sx; reflexivity); try (destruct sy; reflexivity).
  - destruct sx, sy; reflexivity.
  - unfold SFadd. apply binary_normalize_not_neg. cbn [cond_Zopp]. lia.
Qed.

(** *** Digits and valid mantissas *)

Lemma digits2_pos_size (m : positive) : digits2_pos m = Pos.size m.
Proof. induction m; cbn; congruence. Qed.

(** A mantissa of [d] digits lies in [[2^(d-1), 2^d)], and conversely. *)
Lemma digits_bounds (m : positive) :
  2 ^ (Z.pos (digits2_pos m) - 1) <= Z.pos m < 2 ^ Z.pos (digits2_pos m).
Proof.
  rewrite digits2_pos_size.
  pose proof (Pos.size_gt m) as Hgt. pose proof (Pos.size_le m) as Hle.
  apply Pos2Z.pos_lt_pos in Hgt. apply Pos2Z.pos_le_pos in Hle.
  rewrite Pos2Z.inj_pow in Hgt, Hle.
  replace (Z.pos (Pos.size m)) with (Z.succ (Z.pos (Pos.size m) - 1)) in Hle at 1 by lia.
  rewrite Z.pow_succ_r in Hle by lia.
  lia.
Qed.

Lemma digits_unique (m : positive) (d : Z) :
  2 ^ (d - 1) <= Z.pos m < 2 ^ d -> Z.pos (digits2_pos m) = d.
Proof.
  intros [Hlo Hhi]. pose proof (digits_bounds m) as [Hlo' Hhi'].
  set (k := Z.pos (digits2_pos m)) in *.
  assert (0 < k) by (subst k; lia).
  destruct (Z.lt_trichotomy k d) as [Hlt | [Heq | Hgt]]; [exfalso | exact Heq | exfalso].
  - assert (2 ^ k <= 2 ^ (d - 1)) by (apply Z.pow_le_mono_r; lia). lia.
  - assert (d <= 0 \/ 0 < d) as [Hd | Hd] by lia.
    + assert (2 ^ d <= 2 ^ 0) by (destruct (Z.eq_dec d 0); [subst; lia | rewrite Z.pow_neg_r by lia; cbn; lia]).
      change (2 ^ 0) with 1 in *. lia.
    + assert (2 ^ d <= 2 ^ (k - 1)) by (apply Z.pow_le_mono_r; lia). lia.
Qed.

(** A valid finite double: exponent in range, at most 53 digits, exactly
    53 unless subnormal. *)
Lemma bounded_shape (m : positive) (e : Z) :
  bounded prec emax m e = true ->
  -1074 <= e <= 971 /\
  Z.pos (digits2_pos m) <= 53 /\
  (-1074 < e -> Z.pos (digits2_pos m) = 53).
Proof.
  unfold bounded, canonical_mantissa, fexp, SpecFloat.emin, prec, emax.
  intros H. apply andb_true_iff in H as [Hc He].
  apply Z.eqb_eq in Hc. apply Z.leb_le in He. lia.
Qed.

Lemma shape_bounded (m : positive) (e : Z) :
  -1074 <= e <= 971 ->
  Z.pos (digits2_pos m) <= 53 ->
  (-1074 < e -> Z.pos (digits2_pos m) = 53) ->
  bounded prec emax m e = true.
Proof.
  unfold bounded, canonical_mantissa, fexp, SpecFloat.emin, prec, emax.
  intros He Hd Hn. apply andb_true_iff. split; [apply Z.eqb_eq | apply Z.leb_le]; lia.
Qed.

(** *** Alignment and shifts *)

Lemma iter_xO (m : positive) (d : positive) :
  Z.pos (Pos.iter xO m d) = Z.pos m * 2 ^ Z.pos d.
Proof.
  induction d as [ | d IH] using Pos.peano_ind.
  - cbn. lia.
  - rewrite Pos.iter_succ, Pos2Z.inj_succ, Z.pow_succ_r by lia.
    rewrite Pos2Z.inj_xO, IH. lia.
Qed.

(** Aligning a mantissa to a smaller exponent multiplies it by a power of 2. *)
Lemma shl_align_value (m : positive) (e ez : Z) :
  ez <= e ->
  Z.pos (fst (shl_align m e ez)) = Z.pos m * 2 ^ (e - ez) /\
  snd (shl_align m e ez) = ez.
Proof.
  intros H. unfold shl_align.
  destruct (ez - e) as [ | d | d] eqn:E; try lia; cbn [fst snd].
  - replace (e - ez) with 0 by lia. split; lia.
  - rewrite iter_xO. replace (e - ez) with (Z.pos d) by lia. split; lia.
Qed.

(** An invariant indexed by the number of iterations done. *)
Lemma iter_pos_invariant {A : Type} (f : A -> A) (I : Z -> A -> Prop) :
  (forall k x, 0 <= k -> I k x -> I (k + 1) (f x)) ->
  forall (n : positive) (k : Z) (x : A), 0 <= k -> I k x -> I (k + Z.pos n) (iter_pos f n x).
Proof.
  intros Hstep. induction n as [n IH | n IH | ]; intros k x Hk Hx; cbn [iter_pos].
  - replace (k + Z.pos n~1) with (k + 1 + Z.pos n + Z.pos n) by lia.
    apply IH; [lia | ]. apply IH; [lia | ]. apply Hstep; assumption.
  - replace (k + Z.pos n~0) with (k + Z.pos n + Z.pos n) by lia.
    apply IH; [lia | ]. apply IH; assumption.
  - apply Hstep; assumption.
Qed.

(** One shift: halve, remember the bit shifted out, accumulate the rest. *)
Lemma shr_1_spec (mrs : shr_record) :
  0 <= shr_m mrs ->
  shr_m (shr_1 mrs) = shr_m mrs / 2 /\
  shr_r (shr_1 mrs) = Z.odd (shr_m mrs) /\
  shr_s (shr_1 mrs) = shr_r mrs || shr_s mrs.
Proof.
  destruct mrs as [m r s]. cbn [shr_m shr_r shr_s]. intros Hm.
  destruct m as [ | [p | p | ] | p]; try lia; cbn [shr_1 shr_m shr_r shr_s].
  - repeat split.
  - repeat split. apply Z.div_unique with (r := 1); lia.
  - repeat split. apply Z.div_unique with (r := 0); lia.
  - repeat split.
Qed.

Section Shift.
Variable m0 : Z.
Hypothesis m0_nonneg : 0 <= m0.

Lemma shifted_step (k : Z) (mrs : shr_record) :
  0 <= k -> shifted m0 k mrs -> shifted m0 (k + 1) (shr_1 mrs).
Proof.
  intros Hk [Hm Hex].
  assert (0 < 2 ^ k) as Hp by (apply pow2_pos, Hk).
  assert (2 ^ (k + 1) = 2 ^ k * 2) as Hpow by (rewrite Z.pow_add_r by lia; reflexivity).
  assert (0 <= shr_m mrs) as Hnn by (rewrite Hm; apply Z.div_pos; lia).
  destruct (shr_1_spec mrs Hnn) as (Hm' & Hr' & Hs').
  split.
  - rewrite Hm', Hm, Hpow. apply Z.div_div; lia.
  - intros Hmod. rewrite Hr', Hs', Hm.
    assert (m0 = 2 ^ k * (2 * (m0 / 2 ^ (k + 1)))) as Hdec.
    { pose proof (Z.div_mod m0 (2 ^ (k + 1)) ltac:(lia)) as Hdm. lia. }
    assert (m0 mod 2 ^ k = 0) as Hmodk.
    { rewrite Hdec, Z.mul_comm. apply Z.mod_mul. lia. }
    assert (m0 / 2 ^ k = 2 * (m0 / 2 ^ (k + 1))) as Hq.
    { rewrite Hdec at 1. rewrite Z.mul_comm. apply Z.div_mul. lia. }
    destruct (Hex Hmodk) as [-> ->]. rewrite Hq, Z.odd_mul. split; reflexivity.
Qed.

Lemma shr_spec (e : Z) (n : positive) :
  exists mrs, shr {| shr_m := m0; shr_r := false; shr_s := false |} e (Z.pos n)
              = (mrs, e + Z.pos n) /\ shifted m0 (Z.pos n) mrs.
Proof.
  cbn [shr]. eexists. split; [reflexivity | ].
  apply (iter_pos_invariant shr_1 (shifted m0) shifted_step n 0); [lia | ].
  split; cbn [shr_m shr_r shr_s].
  - rewrite Z.div_1_r. reflexivity.
  - intros _. split; reflexivity.
Qed.
End Shift.

(** *** [float(z)]: the conversion of an [int] *)

Lemma round_nearest_even_bounds (q : Z) (l : location) :
  q <= round_nearest_even q l <= q + 1.
Proof.
  destruct l as [ | [ | | ]]; cbn [round_nearest_even]; try destruct (Z.even q); lia.
Qed.

Lemma fexp_normal (d e : Z) :
  d = 53 -> -1074 <= e -> fexp prec emax (d + e) - e = 0.
Proof. unfold fexp, SpecFloat.emin, prec, emax. lia. Qed.

(** A 53-digit mantissa with an exponent in range is kept as it is. *)
Lemma binary_round_aux_exact (mz : positive) (ez : Z) :
  Z.pos (digits2_pos mz) = 53 -> -1074 <= ez <= 971 ->
  binary_round_aux prec emax false (Z.pos mz) ez loc_Exact = S754_finite false mz ez.
Proof.
  intros Hd He.
  assert (fexp prec emax (Zdigits2 (Z.pos mz) + ez) - ez = 0) as H0
      by (apply fexp_normal; [exact Hd | lia]).
  unfold binary_round_aux, shr_fexp. rewrite H0.
  cbn [shr shr_record_of_loc shr_m loc_of_shr_record round_nearest_even].
  rewrite H0. cbn [shr shr_record_of_loc shr_m].
  replace (ez <=? emax - prec) with true; [reflexivity | ].
  symmetry. apply Z.leb_le. unfold emax, prec. lia.
Qed.

(** An [int] of at most 53 bits converts exactly. *)
Lemma round_int_small (p : positive) :
  Z.pos (digits2_pos p) <= 53 ->
  exists mz,
    binary_round prec emax false p 0
    = S754_finite false mz (Z.pos (digits2_pos p) - 53) /\
    Z.pos mz = Z.pos p * 2 ^ (53 - Z.pos (digits2_pos p)) /\
    Z.pos (digits2_pos mz) = 53.
Proof.
  intros Hd. set (d := Z.pos (digits2_pos p)) in *.
  assert (fexp prec emax (d + 0) = d - 53) as Hf
      by (unfold fexp, SpecFloat.emin, prec, emax; subst d; lia).
  unfold binary_round. fold d. rewrite Hf.
  destruct (shl_align_value p 0 (d - 53) ltac:(lia)) as [Hm He].
  destruct (shl_align p 0 (d - 53)) as [mz ez]. cbn [fst snd] in Hm, He. subst ez.
  replace (0 - (d - 53)) with (53 - d) in Hm by lia.
  assert (Z.pos (digits2_pos mz) = 53) as Hdz.
  { apply digits_unique. rewrite Hm.
    pose proof (digits_bounds p) as [Hlo Hhi]. fold d in Hlo, Hhi.
    assert (0 < 2 ^ (53 - d)) as Hp by (apply pow2_pos; lia).
    assert (2 ^ (53 - 1) = 2 ^ (d - 1) * 2 ^ (53 - d)) as E1
        by (rewrite <- Z.pow_add_r by (subst d; lia); f_equal; lia).
    assert (2 ^ 53 = 2 ^ d * 2 ^ (53 - d)) as E2
        by (rewrite <- Z.pow_add_r by (subst d; lia); f_equal; lia).
    rewrite E1, E2. split.
    - apply Z.mul_le_mono_nonneg_r; lia.
    - apply Z.mul_lt_mono_pos_r; lia. }
  exists mz. split; [ | split; assumption].
  apply binary_round_aux_exact; [exact Hdz | subst d; lia].
Qed.

(** An [int] of [53 + n] bits: the top 53 bits [q], or [q + 1]; [q] itself
    when the [n] low bits are zero. *)
Lemma round_int_large (p n : positive) :
  Z.pos (digits2_pos p) = 53 + Z.pos n ->
  exists q',
    Z.pos p / 2 ^ Z.pos n <= q' <= Z.pos p / 2 ^ Z.pos n + 1 /\
    (Z.pos p mod 2 ^ Z.pos n = 0 -> q' = Z.pos p / 2 ^ Z.pos n) /\
    (binary_round prec emax false p 0 = S754_infinity false \/
     exists mf ef,
       binary_round prec emax false p 0 = S754_finite false mf ef /\
       Z.pos n <= ef <= 971 /\
       Z.pos (digits2_pos mf) = 53 /\
       Z.pos mf * 2 ^ (ef - Z.pos n) = q').
Proof.
  intros Hd.
  assert (fexp prec emax (Z.pos (digits2_pos p) + 0) = Z.pos n) as Hf
      by (unfold fexp, SpecFloat.emin, prec, emax; lia).
  unfold binary_round. rewrite Hf.
  unfold shl_align. cbn [Z.sub Z.opp Z.add].
  unfold binary_round_aux, shr_fexp.
  cbn [Zdigits2 shr_record_of_loc]. rewrite Hf, Z.sub_0_r.
  destruct (shr_spec (Z.pos p) ltac:(lia) 0 n) as (mrs & Hshr & Hq & Hex).
  rewrite Hshr. rewrite Z.add_0_l.
  set (q := Z.pos p / 2 ^ Z.pos n) in *.
  assert (0 < 2 ^ Z.pos n) as Hpn by (apply pow2_pos; lia).
  pose proof (digits_bounds p) as [Hlo Hhi]. rewrite Hd in Hlo, Hhi.
  assert (2 ^ 52 <= q < 2 ^ 53) as Hqb.
  { replace (53 + Z.pos n - 1) with (52 + Z.pos n) in Hlo by lia.
    rewrite Z.pow_add_r in Hlo, Hhi by lia. split.
    - apply Z.div_le_lower_bound; lia.
    - apply Z.div_lt_upper_bound; lia. }
  pose proof (round_nearest_even_bounds (shr_m mrs) (loc_of_shr_record mrs)) as Hb.
  set (q' := round_nearest_even (shr_m mrs) (loc_of_shr_record mrs)) in *.
  rewrite Hq in Hb.
  exists q'. split; [exact Hb | ]. split.
  { intros Hmod. destruct (Hex Hmod) as [Hr Hs]. subst q'.
    destruct mrs as [m r s]. cbn [shr_r shr_s shr_m] in *. subst r s.
    cbn [loc_of_shr_record round_nearest_even]. exact Hq. }
  change (2 ^ 52) with 4503599627370496 in Hqb.
  change (2 ^ 53) with 9007199254740992 in Hqb.
  destruct q' as [ | q'p | q'p] eqn:Eq'; try lia.
  destruct (Z.eq_dec (Z.pos q'p) 9007199254740992) as [Htop | Hlow].
  - (* the mantissa was rounded up to 2^53: one more shift *)
    assert (Z.pos (digits2_pos q'p) = 54) as Hdq
        by (apply digits_unique; rewrite Htop; cbn; lia).
    assert (fexp prec emax (Zdigits2 (Z.pos q'p) + Z.pos n) - Z.pos n = 1) as Hs1
        by (cbn [Zdigits2]; unfold fexp, SpecFloat.emin, prec, emax; lia).
    rewrite Hs1.
    destruct (shr_spec (Z.pos q'p) ltac:(lia) (Z.pos n) 1) as (mrs2 & Hshr2 & Hq2 & _).
    rewrite Hshr2, Hq2, Htop.
    change (9007199254740992 / 2 ^ 1) with 4503599627370496.
    destruct (Z.pos n + 1 <=? emax - prec) eqn:Hle; [right | left; reflexivity].
    apply Z.leb_le in Hle. unfold emax, prec in Hle.
    eexists. eexists. split; [reflexivity | ].
    split; [lia | ]. split; [reflexivity | ].
    replace (Z.pos n + 1 - Z.pos n) with 1 by lia. reflexivity.
  - assert (Z.pos (digits2_pos q'p) = 53) as Hdq
        by (apply digits_unique; cbn; lia).
    assert (fexp prec emax (Zdigits2 (Z.pos q'p) + Z.pos n) - Z.pos n = 0) as Hs0
        by (cbn [Zdigits2]; unfold fexp, SpecFloat.emin, prec, emax; lia).
    rewrite Hs0. cbn [shr shr_m].
    destruct (Z.pos n <=? emax - prec) eqn:Hle; [right | left; reflexivity].
    apply Z.leb_le in Hle. unfold emax, prec in Hle.
    exists q'p, (Z.pos n). split; [reflexivity | ].
    split; [lia | ]. split; [exact Hdq | ].
    rewrite Z.sub_diag. lia.
Qed.

(** *** Magnitudes *)

Lemma weight_pos (e : Z) : -1074 <= e -> 0 < weight e.
Proof. intros H. apply pow2_pos. lia. Qed.

Lemma weight_add (e k : Z) :
  -1074 <= e -> 0 <= k -> weight (e + k) = 2 ^ k * weight e.
Proof.
  intros He Hk. unfold weight.
  replace (e + k + 1074) with (k + (e + 1074)) by lia.
  apply Z.pow_add_r; lia.
Qed.

Lemma weight_le (e e' : Z) :
  -1074 <= e -> e < e' -> 2 * weight e <= weight e'.
Proof.
  intros He Hlt. replace e' with (e + (e' - e)) by lia.
  rewrite weight_add by lia.
  pose proof (weight_pos e He) as Hw.
  assert (2 ^ 1 <= 2 ^ (e' - e)) as Hp by (apply Z.pow_le_mono_r; lia).
  change (2 ^ 1) with 2 in Hp.
  apply Z.mul_le_mono_nonneg_r; lia.
Qed.

Lemma mantissa_lt (m : positive) (e : Z) :
  bounded prec emax m e = true -> Z.pos m < 2 ^ 53.
Proof.
  intros Hb. destruct (bounded_shape m e Hb) as (_ & Hd & _).
  pose proof (digits_bounds m) as [_ Hhi].
  assert (2 ^ Z.pos (digits2_pos m) <= 2 ^ 53) by (apply Z.pow_le_mono_r; lia).
  lia.
Qed.

Lemma mantissa_ge (m : positive) (e : Z) :
  bounded prec emax m e = true -> -1074 < e -> 2 ^ 52 <= Z.pos m.
Proof.
  intros Hb He. destruct (bounded_shape m e Hb) as (_ & _ & Hd).
  pose proof (digits_bounds m) as [Hlo _]. rewrite (Hd He) in Hlo. exact Hlo.
Qed.

(** *** The conversion is faithful *)

Lemma faithful_exact (z : Z) (mf : positive) (ef : Z) :
  bounded prec emax mf ef = true -> mag mf ef = z * weight 0 -> faithful z mf ef.
Proof.
  intros Hb E. split; [exact Hb | ]. rewrite E. split; intros; assumption.
Qed.

Lemma faithful_small (p : positive) :
  Z.pos (digits2_pos p) <= 53 ->
  exists mf ef, binary_round prec emax false p 0 = S754_finite false mf ef /\
                faithful (Z.pos p) mf ef.
Proof.
  intros Hd. destruct (round_int_small p Hd) as (mz & HR & Hm & Hdz).
  set (d := Z.pos (digits2_pos p)) in *.
  assert (0 < d) by (subst d; lia).
  exists mz, (d - 53). split; [exact HR | ].
  apply faithful_exact.
  - apply shape_bounded; lia.
  - assert (weight 0 = 2 ^ (53 - d) * weight (d - 53)) as E
        by (rewrite <- weight_add by lia; f_equal; lia).
    unfold mag. rewrite Hm, E. ring.
Qed.

Lemma faithful_large (p n : positive) :
  Z.pos (digits2_pos p) = 53 + Z.pos n ->
  binary_round prec emax false p 0 = S754_infinity false \/
  exists mf ef, binary_round prec emax false p 0 = S754_finite false mf ef /\
                faithful (Z.pos p) mf ef.
Proof.
  intros Hd.
  destruct (round_int_large p n Hd) as (q' & Hq' & Hexact & [Hinf | Hfin]);
    [left; exact Hinf | right].
  destruct Hfin as (mf & ef & HR & Hef & Hdf & Hmf).
  exists mf, ef. split; [exact HR | ].
  set (N := Z.pos n) in *. set (q := Z.pos p / 2 ^ N) in *.
  assert (0 < N) as HN by (subst N; lia).
  assert (0 < 2 ^ N) as HpN by (apply pow2_pos; lia).
  pose proof (weight_pos 0 ltac:(lia)) as HW0.
  pose proof (weight_pos N ltac:(lia)) as HWN.
  assert (weight N = 2 ^ N * weight 0) as EWN
      by (rewrite <- weight_add by lia; f_equal).
  assert (mag mf ef = q' * weight N) as Emag.
  { assert (weight ef = 2 ^ (ef - N) * weight N) as E
        by (rewrite <- weight_add by lia; f_equal; lia).
    unfold mag. rewrite <- Hmf, E. ring. }
  pose proof (Z.div_mod (Z.pos p) (2 ^ N) ltac:(lia)) as Hdm. fold q in Hdm.
  pose proof (Z.mod_pos_bound (Z.pos p) (2 ^ N) HpN) as Hr.
  pose proof (digits_bounds p) as [Hlo _]. rewrite Hd in Hlo. fold N in Hlo.
  assert (2 ^ 52 <= q) as Hq52.
  { replace (53 + N - 1) with (52 + N) in Hlo by lia.
    rewrite Z.pow_add_r in Hlo by lia.
    apply Z.div_le_lower_bound; lia. }
  split; [apply shape_bounded; lia | ]. rewrite Emag. split.
  - (* doubles below the integer stay below its conversion *)
    intros m e Hb Hle.
    destruct (bounded_shape m e Hb) as (He & _ & _).
    pose proof (weight_pos e ltac:(lia)) as HWe.
    apply Z.le_trans with (q * weight N);
      [ | apply Z.mul_le_mono_nonneg_r; lia].
    destruct (Z.le_gt_cases N e) as [Hne | Hne].
    + assert (weight e = 2 ^ (e - N) * weight N) as EWe
          by (rewrite <- weight_add by lia; f_equal; lia).
      unfold mag in *. rewrite EWe in *. rewrite EWN in Hle.
      assert (Z.pos m * 2 ^ (e - N) <= q) as Hmq.
      { apply Z.div_le_lower_bound; [lia | ].
        apply Z.mul_le_mono_pos_r with (weight 0); [lia | ].
        rewrite <- Hle at 1. apply Z.eq_le_incl. ring. }
      rewrite Z.mul_assoc. apply Z.mul_le_mono_nonneg_r; lia.
    + pose proof (mantissa_lt m e Hb) as Hm53.
      pose proof (weight_le e N ltac:(lia) Hne) as Hw.
      unfold mag.
      apply Z.le_trans with (2 ^ 53 * weight e);
        [apply Z.mul_le_mono_nonneg_r; lia | ].
      apply Z.le_trans with (2 ^ 52 * weight N);
        [ | apply Z.mul_le_mono_nonneg_r; lia].
      change (2 ^ 53) with (2 ^ 52 * 2). rewrite <- Z.mul_assoc.
      apply Z.mul_le_mono_nonneg_l; [apply Z.pow_nonneg; lia | exact Hw].
  - (* doubles above the integer stay above its conversion *)
    intros m e Hb Hle.
    destruct (bounded_shape m e Hb) as (He & _ & _).
    pose proof (weight_pos e ltac:(lia)) as HWe.
    destruct (Z.eq_dec (Z.pos p mod 2 ^ N) 0) as [Hmod | Hmod].
    + rewrite (Hexact Hmod). rewrite EWN.
      apply Z.le_trans with (Z.pos p * weight 0); [ | exact Hle].
      apply Z.eq_le_incl. transitivity ((2 ^ N * q) * weight 0); [ring | ].
      f_equal. lia.
    + apply Z.le_trans with ((q + 1) * weight N);
        [apply Z.mul_le_mono_nonneg_r; lia | ].
      destruct (Z.le_gt_cases N e) as [Hne | Hne].
      * assert (weight e = 2 ^ (e - N) * weight N) as EWe
            by (rewrite <- weight_add by lia; f_equal; lia).
        unfold mag in *. rewrite EWe in *. rewrite EWN in Hle.
        assert (q < Z.pos m * 2 ^ (e - N)) as Hmq.
        { apply Z.mul_lt_mono_pos_l with (2 ^ N); [lia | ].
          apply Z.lt_le_trans with (Z.pos p); [lia | ].
          apply Z.mul_le_mono_pos_r with (weight 0); [lia | ].
          rewrite Hle. apply Z.eq_le_incl. ring. }
        rewrite Z.mul_assoc. apply Z.mul_le_mono_nonneg_r; lia.
      * exfalso.
        pose proof (mantissa_lt m e Hb) as Hm53.
        pose proof (weight_le e N ltac:(lia) Hne) as Hw.
        assert (mag m e < 2 ^ 53 * weight e) as H1
            by (unfold mag; apply Z.mul_lt_mono_pos_r; lia).
        assert (2 ^ 53 * weight e <= 2 ^ 52 * weight N) as H2.
        { change (2 ^ 53) with (2 ^ 52 * 2). rewrite <- Z.mul_assoc.
          apply Z.mul_le_mono_nonneg_l; [apply Z.pow_nonneg; lia | exact Hw]. }
        assert (2 ^ 52 * weight N <= q * weight N) as H3
            by (apply Z.mul_le_mono_nonneg_r; lia).
        assert (q * weight N <= Z.pos p * weight 0) as H4.
        { rewrite EWN, Z.mul_assoc. apply Z.mul_le_mono_nonneg_r; lia. }
        lia.
Qed.

(** The conversion of a positive [int]: too large, or a faithful double. *)
Lemma round_int (p : positive) :
  binary_round prec emax false p 0 = S754_infinity false \/
  exists mf ef, binary_round prec emax false p 0 = S754_finite false mf ef /\
                faithful (Z.pos p) mf ef.
Proof.
  destruct (Z.le_gt_cases (Z.pos (digits2_pos p)) 53) as [H | H].
  - right. apply faithful_small, H.
  - destruct (Z.pos (digits2_pos p) - 53) as [ | n | n] eqn:E; try lia.
    apply (faithful_large p n). lia.
Qed.

(** *** Comparisons and differences on magnitudes *)

Lemma Prim2SF_bounded (f : float) (s : bool) (m : positive) (e : Z) :
  Prim2SF f = S754_finite s m e -> bounded prec emax m e = true.
Proof.
  intros E. pose proof (Prim2SF_valid f) as H. rewrite E in H. exact H.
Qed.

(** The comparison of an [int] with a positive finite double, on magnitudes. *)
Lemma Z_cmp_float_mag (z : Z) (f : float) (m : positive) (e : Z) :
  Prim2SF f = S754_finite false m e ->
  Z_cmp_float z f = Some (z * weight 0 ?= mag m e).
Proof.
  intros E. destruct (bounded_shape m e (Prim2SF_bounded f _ m e E)) as (He & _ & _).
  unfold Z_cmp_float. rewrite E. cbv zeta. cbn [cond_Zopp]. f_equal.
  pose proof (weight_pos 0 ltac:(lia)) as HW0.
  pose proof (weight_pos e ltac:(lia)) as HWe.
  unfold mag. destruct (Z.leb_spec 0 e) as [H0 | H0].
  - assert (weight e = 2 ^ e * weight 0) as ->
        by (rewrite <- weight_add by lia; f_equal).
    rewrite Z.mul_assoc. apply Zmult_compare_compat_r. lia.
  - assert (weight 0 = 2 ^ (- e) * weight e) as ->
        by (rewrite <- weight_add by lia; f_equal; lia).
    rewrite Z.mul_assoc. apply Zmult_compare_compat_r. lia.
Qed.

(** The comparison of two positive finite doubles agrees with their
    magnitudes. *)
Lemma SFcompare_mag (my mx : positive) (ey ex : Z) :
  bounded prec emax my ey = true -> bounded prec emax mx ex = true ->
  SFcompare (S754_finite false my ey) (S754_finite false mx ex) <> Some Gt ->
  mag my ey <= mag mx ex.
Proof.
  intros Hy Hx. cbn [SFcompare].
  destruct (bounded_shape my ey Hy) as (Hey & _ & _).
  destruct (bounded_shape mx ex Hx) as (Hex & _ & _).
  pose proof (weight_pos ey ltac:(lia)) as HWy.
  unfold mag.
  destruct (Z.compare_spec ey ex) as [E | Hlt | Hgt]; intros H.
  - subst ex. apply Z.mul_le_mono_nonneg_r; [lia | ].
    rewrite Pos.compare_cont_spec in H. cbn [Pos.switch_Eq] in H.
    destruct (Pos.compare_spec my mx); cbn [Pos.switch_Eq] in H; try congruence; lia.
  - pose proof (mantissa_lt my ey Hy) as Hm.
    pose proof (mantissa_ge mx ex Hx ltac:(lia)) as Hm'.
    pose proof (weight_le ey ex ltac:(lia) Hlt) as Hw.
    apply Z.le_trans with (2 ^ 53 * weight ey);
      [apply Z.mul_le_mono_nonneg_r; lia | ].
    apply Z.le_trans with (2 ^ 52 * weight ex);
      [ | apply Z.mul_le_mono_nonneg_r; [ | exact Hm']].
    + change (2 ^ 53) with (2 ^ 52 * 2). rewrite <- Z.mul_assoc.
      apply Z.mul_le_mono_nonneg_l; [apply Z.pow_nonneg; lia | exact Hw].
    + pose proof (weight_pos ex ltac:(lia)). lia.
  - congruence.
Qed.

(** The difference of two positive finite doubles is not negative when the
    second is not above the first. *)
Lemma SFsub_finite_not_neg (mx my : positive) (ex ey : Z) :
  -1074 <= ex -> -1074 <= ey -> mag my ey <= mag mx ex ->
  sf_not_neg (SFsub prec emax (S754_finite false mx ex) (S754_finite false my ey)) = true.
Proof.
  intros Hex Hey Hle. cbn [SFsub]. apply binary_normalize_not_neg.
  cbn [cond_Zopp]. set (ez := Z.min ex ey).
  destruct (shl_align_value mx ex ez ltac:(lia)) as [-> _].
  destruct (shl_align_value my ey ez ltac:(lia)) as [-> _].
  pose proof (weight_pos ez ltac:(lia)) as HW.
  assert (weight ex = 2 ^ (ex - ez) * weight ez) as Ex
      by (rewrite <- weight_add by lia; f_equal; lia).
  assert (weight ey = 2 ^ (ey - ez) * weight ez) as Ey
      by (rewrite <- weight_add by lia; f_equal; lia).
  unfold mag in Hle. rewrite Ex, Ey, !Z.mul_assoc in Hle.
  apply Z.mul_le_mono_pos_r in Hle; lia.
Qed.

(** What [float(z)] returns on an [int] that is not negative. *)
Lemma long_as_double_spec (z : Z) (x : float) :
  0 <= z -> long_as_double z = Return x ->
  (z = 0 /\ Prim2SF x = S754_zero false) \/
  (0 < z /\ exists mf ef, Prim2SF x = S754_finite false mf ef /\ faithful z mf ef).
Proof.
  intros Hz. unfold long_as_double. destruct z as [ | p | p]; [ | | lia].
  - cbn. intros H. left. injection H as <-. split; reflexivity.
  - cbn [binary_normalize]. intros H. right. split; [lia | ].
    destruct (round_int p) as [Hinf | (mf & ef & HR & Hf)]; rewrite ?Hinf, ?HR in H;
      [discriminate | ].
    change (Return (SF2Prim (S754_finite false mf ef)) = Return x) in H.
    assert (x = SF2Prim (S754_finite false mf ef)) as -> by congruence.
    exists mf, ef. split; [ | exact Hf].
    apply Prim2SF_SF2Prim. apply Hf.
Qed.

(** *** What the guards of [deposit] and [withdraw] let through *)

Lemma py_le_zero_float (f : float) :
  py_le (PyFloat f) (PyInt 0) = negb (positive_or_nan (Prim2SF f)).
Proof.
  unfold py_le. cbn [py_cmp]. rewrite Z_cmp_float_zero.
  destruct (Prim2SF f) as [s | [ | ] | | [ | ] m e]; reflexivity.
Qed.

Lemma positive_not_neg (sf : spec_float) :
  positive_or_nan sf = true -> sf_not_neg sf = true.
Proof. destruct sf as [s | [ | ] | | [ | ] m e]; cbn; congruence. Qed.

Lemma py_lt_zero_int (z : Z) : py_lt (PyInt z) (PyInt 0) = false -> 0 <= z.
Proof.
  unfold py_lt. cbn [py_cmp]. destruct (Z.compare_spec z 0); intros; try congruence; lia.
Qed.

Lemma py_le_zero_int (z : Z) : py_le (PyInt z) (PyInt 0) = false -> 0 < z.
Proof.
  unfold py_le. cbn [py_cmp]. destruct (Z.compare_spec z 0); intros; try congruence; lia.
Qed.


(** A number that is not negative converts to a double that is not negative. *)
Lemma as_double_not_neg (n : num) (x : float) :
  py_lt n (PyInt 0) = false -> as_double n = Return x ->
  sf_not_neg (Prim2SF x) = true.
Proof.
  destruct n as [z | f]; cbn [as_double]; intros Hn Hx.
  - destruct (long_as_double_spec z x (py_lt_zero_int z Hn) Hx)
      as [[_ E] | [_ (mf & ef & E & _)]]; rewrite E; reflexivity.
  - injection Hx as <-. rewrite py_lt_zero_float in Hn.
    destruct (sf_not_neg (Prim2SF f)); [reflexivity | discriminate].
Qed.

(** An amount that is not [<= 0] converts to a positive double or to NaN. *)
Lemma as_double_positive (n : num) (y : float) :
  py_le n (PyInt 0) = false -> as_double n = Return y ->
  positive_or_nan (Prim2SF y) = true.
Proof.
  destruct n as [z | f]; cbn [as_double]; intros Hn Hy.
  - pose proof (py_le_zero_int z Hn) as Hz.
    destruct (long_as_double_spec z y ltac:(lia) Hy)
      as [[E _] | [_ (mf & ef & E & _)]]; [lia | rewrite E; reflexivity].
  - injection Hy as <-. rewrite py_le_zero_float in Hn.
    destruct (positive_or_nan (Prim2SF f)); [reflexivity | discriminate].
Qed.

(** [self.balance += amount] keeps a balance that is not negative so. *)
Lemma py_add_not_negative (b a b' : num) :
  py_lt b (PyInt 0) = false -> py_le a (PyInt 0) = false ->
  py_add b a = Return b' -> py_lt b' (PyInt 0) = false.
Proof.
  intros Hb Ha Hadd.
  assert (forall x y, as_double b = Return x -> as_double a = Return y ->
                      py_lt (PyFloat (x + y)%float) (PyInt 0) = false) as Hfl.
  { intros x y Hx Hy. rewrite py_lt_zero_float, add_spec.
    unfold SF64add. rewrite SFadd_not_neg; [reflexivity | | ].
    - apply (as_double_not_neg b x Hb Hx).
    - apply positive_not_neg, (as_double_positive a y Ha Hy). }
  destruct b as [z | f], a as [y | g]; cbn [py_add] in Hadd.
  - injection Hadd as <-.
    pose proof (py_lt_zero_int z Hb). pose proof (py_le_zero_int y Ha).
    unfold py_lt. cbn [py_cmp]. destruct (Z.compare_spec (z + y) 0); try reflexivity; lia.
  - destruct (as_double (PyInt z)) as [x | ] eqn:Ex; cbn [obind as_double] in Hadd;
      [ | discriminate].
    injection Hadd as <-. apply Hfl; reflexivity.
  - cbn [as_double obind] in Hadd.
    destruct (long_as_double y) as [x | ] eqn:Ex; [ | discriminate].
    injection Hadd as <-. apply Hfl; [reflexivity | exact Ex].
  - cbn [as_double obind] in Hadd. injection Hadd as <-. apply Hfl; reflexivity.
Qed.

(** *** Withdrawals *)

Lemma mag_pos (m : positive) (e : Z) : -1074 <= e -> 0 < mag m e.
Proof. intros H. unfold mag. pose proof (weight_pos e H). apply Z.mul_pos_pos; lia. Qed.

Lemma valid_exponent (s : bool) (m : positive) (e : Z) :
  valid_binary (S754_finite s m e) = true -> -1074 <= e.
Proof. intros H. apply (bounded_shape m e H). Qed.

(** The difference [x - y] is not negative when [y] is not above [x]. *)
Lemma SFsub_not_neg (x y : spec_float) :
  valid_binary x = true -> valid_binary y = true ->
  sf_not_neg x = true -> positive_or_nan y = true -> not_above y x ->
  sf_not_neg (SFsub prec emax x y) = true.
Proof.
  intros Vx Vy.
  destruct x as [sx | [ | ] | | [ | ] mx ex], y as [sy | [ | ] | | [ | ] my ey];
    cbn [sf_not_neg positive_or_nan not_above]; intros Hx Hy Hxy;
    try discriminate; try contradiction; try reflexivity.
  apply SFsub_finite_not_neg;
    [apply (valid_exponent _ _ _ Vx) | apply (valid_exponent _ _ _ Vy) | exact Hxy].
Qed.

(** Two doubles, the amount not above the balance. *)
Lemma not_above_floats (x y : float) :
  sf_not_neg (Prim2SF x) = true -> positive_or_nan (Prim2SF y) = true ->
  py_gt (PyFloat y) (PyFloat x) = false ->
  not_above (Prim2SF y) (Prim2SF x).
Proof.
  unfold py_gt. cbn [py_cmp]. rewrite float_cmp_spec.
  pose proof (Prim2SF_valid x) as Vx. pose proof (Prim2SF_valid y) as Vy.
  destruct (Prim2SF x) as [sx | [ | ] | | [ | ] mx ex], (Prim2SF y) as [sy | [ | ] | | [ | ] my ey];
    cbn [sf_not_neg positive_or_nan not_above]; intros Hx Hy Hxy;
    try discriminate; try exact I.
  apply SFcompare_mag; [exact Vy | exact Vx | ].
  intros E. rewrite E in Hxy. discriminate.
Qed.

(** An [int] balance and a [float] amount not above it. *)
Lemma not_above_int_balance (z : Z) (x y : float) :
  0 <= z -> long_as_double z = Return x ->
  positive_or_nan (Prim2SF y) = true ->
  py_gt (PyFloat y) (PyInt z) = false ->
  not_above (Prim2SF y) (Prim2SF x).
Proof.
  intros Hz Hx Hy. unfold py_gt. cbn [py_cmp]. intros Hgt.
  destruct (Prim2SF y) as [sy | [ | ] | | [ | ] my ey] eqn:Ey;
    cbn [positive_or_nan] in Hy; try discriminate.
  - (* inf *)
    exfalso. unfold Z_cmp_float in Hgt. rewrite Ey in Hgt. discriminate.
  - (* nan *)
    destruct (Prim2SF x) as [sx | sx | | sx mx ex]; exact I.
  - (* finite *)
    rewrite (Z_cmp_float_mag z y my ey Ey) in Hgt. cbn [option_map] in Hgt.
    assert (mag my ey <= z * weight 0) as Hle.
    { destruct (Z.compare_spec (z * weight 0) (mag my ey)); cbn in Hgt;
        try discriminate; lia. }
    pose proof (mag_pos my ey (valid_exponent false my ey
                                 (Prim2SF_bounded y false my ey Ey))) as Hpos.
    destruct (long_as_double_spec z x Hz Hx)
      as [[E0 _] | [_ (mf & ef & E & _ & Hlow & _)]].
    + subst z. lia.
    + rewrite E. cbn [not_above]. apply (Hlow my ey); [ | exact Hle].
      apply (Prim2SF_bounded y false my ey Ey).
Qed.

(** A [float] balance and an [int] amount not above it. *)
Lemma not_above_int_amount (a : Z) (x y : float) :
  0 < a -> long_as_double a = Return y ->
  sf_not_neg (Prim2SF x) = true ->
  py_gt (PyInt a) (PyFloat x) = false ->
  not_above (Prim2SF y) (Prim2SF x).
Proof.
  intros Ha Hy Hx. unfold py_gt. cbn [py_cmp]. intros Hgt.
  destruct (long_as_double_spec a y ltac:(lia) Hy)
    as [[E0 _] | [_ (mf & ef & E & _ & _ & Hup)]]; [lia | ].
  rewrite E.
  destruct (Prim2SF x) as [sx | [ | ] | | [ | ] mx ex] eqn:Ex;
    cbn [sf_not_neg] in Hx; try discriminate; cbn [not_above]; try exact I.
  - (* zero *)
    unfold Z_cmp_float in Hgt. rewrite Ex in Hgt.
    destruct (Z.compare_spec a 0); try discriminate; lia.
  - (* finite *)
    rewrite (Z_cmp_float_mag a x mx ex Ex) in Hgt.
    apply (Hup mx ex); [apply (Prim2SF_bounded x false mx ex Ex) | ].
    destruct (Z.compare_spec (a * weight 0) (mag mx ex)); try discriminate; lia.
Qed.

(** [self.balance -= amount], past the two guards of [withdraw], keeps a
    balance that is not negative so. *)
Lemma py_sub_not_negative (b a b' : num) :
  py_lt b (PyInt 0) = false -> py_le a (PyInt 0) = false ->
  py_gt a b = false ->
  py_sub b a = Return b' -> py_lt b' (PyInt 0) = false.
Proof.
  intros Hb Ha Hgt Hsub.
  assert (forall x y, as_double b = Return x -> as_double a = Return y ->
                      not_above (Prim2SF y) (Prim2SF x) ->
                      py_lt (PyFloat (x - y)%float) (PyInt 0) = false) as Hfl.
  { intros x y Hx Hy Hxy. rewrite py_lt_zero_float, sub_spec.
    unfold SF64sub. rewrite SFsub_not_neg; [reflexivity | | | | | exact Hxy].
    - apply Prim2SF_valid.
    - apply Prim2SF_valid.
    - apply (as_double_not_neg b x Hb Hx).
    - apply (as_double_positive a y Ha Hy). }
  destruct b as [z | f], a as [y | g]; cbn [py_sub] in Hsub.
  - injection Hsub as <-.
    pose proof (py_lt_zero_int z Hb). pose proof (py_le_zero_int y Ha).
    unfold py_gt in Hgt. cbn [py_cmp] in Hgt.
    unfold py_lt. cbn [py_cmp].
    destruct (Z.compare_spec y z); try discriminate;
      destruct (Z.compare_spec (z - y) 0); try reflexivity; lia.
  - cbn [as_double obind] in Hsub.
    destruct (long_as_double z) as [x | ] eqn:Ex; [ | discriminate].
    injection Hsub as <-. apply Hfl; [exact Ex | reflexivity | ].
    apply (not_above_int_balance z x g (py_lt_zero_int z Hb) Ex); [ | exact Hgt].
    apply (as_double_positive (PyFloat g) g Ha). reflexivity.
  - cbn [as_double obind] in Hsub.
    destruct (long_as_double y) as [x | ] eqn:Ex; [ | discriminate].
    injection Hsub as <-. apply Hfl; [reflexivity | exact Ex | ].
    apply (not_above_int_amount y f x (py_le_zero_int y Ha) Ex); [ | exact Hgt].
    apply (as_double_not_neg (PyFloat f) f Hb). reflexivity.
  - cbn [as_double obind] in Hsub. injection Hsub as <-.
    apply Hfl; [reflexivity | reflexivity | ].
    apply not_above_floats; [ | | exact Hgt].
    + apply (as_double_not_neg (PyFloat f) f Hb). reflexivity.
    + apply (as_double_positive (PyFloat g) g Ha). reflexivity.
Qed.

(** ** The balance is never negative *)

(** Not negative means [>= 0], or NaN. *)
Lemma not_negative_cases (b : num) :
  py_lt b (PyInt 0) = false -> py_ge b (PyInt 0) = true \/ b = PyFloat nan.
Proof.
  unfold py_lt, py_ge. destruct b as [z | f]; cbn [py_cmp].
  - destruct (z ?= 0); intros; try discriminate; left; reflexivity.
  - rewrite Z_cmp_float_zero.
    destruct (Prim2SF f) as [s | [ | ] | | [ | ] m e] eqn:E; cbn; intros H;
      try discriminate; try (left; reflexivity).
    right. f_equal. apply Prim2SF_inj. rewrite E. reflexivity.
Qed.

(** Every call leaves a valid account valid, whether it returns or raises. *)
Lemma step_keeps_valid (c : call) (w : world) :
  valid (self w) -> valid (self (step w c)).
Proof.
  intros [Hid Hb]. split; [rewrite step_keeps_account_number; exact Hid | ].
  destruct w as [acc out]. cbn [self] in Hb.
  destruct c.
  - unfold step, invoke. run_method.
    destruct (py_le amount (PyInt 0)) eqn:Hle; simpl_world; [exact Hb | ].
    destruct (py_add (balance acc) amount) as [b' | ] eqn:Hadd; simpl_world;
      [ | exact Hb].
    destruct (format_2f amount); simpl_world;
      apply (py_add_not_negative _ _ _ Hb Hle Hadd).
  - unfold step, invoke. run_method.
    destruct (py_le amount (PyInt 0)) eqn:Hle; simpl_world; [exact Hb | ].
    destruct (py_gt amount (balance acc)) eqn:Hgt; simpl_world.
    + destruct (format_2f (balance acc)); exact Hb.
    + destruct (py_sub (balance acc) amount) as [b' | ] eqn:Hsub; simpl_world;
        [ | exact Hb].
      destruct (format_2f amount); simpl_world;
        apply (py_sub_not_negative _ _ _ Hb Hle Hgt Hsub).
  - rewrite (inquiry_keeps_self CheckBalance); [exact Hb | reflexivity].
  - rewrite (inquiry_keeps_self GetAccountNumber); [exact Hb | reflexivity].
  - rewrite (inquiry_keeps_self Repr); [exact Hb | reflexivity].
Qed.

Lemma reachable_valid (acc : BankAccount) : reachable acc -> valid acc.
Proof.
  induction 1 as [a b acc H | acc out c _ IH].
  - exact (init_valid a b acc H).
  - apply step_keeps_valid. exact IH.
Qed.

Lemma reachable_run (cs : list call) (w : world) :
  reachable (self w) -> reachable (self (run cs w)).
Proof.
  revert w. induction cs as [ | c cs IH]; intros w H; [exact H | ].
  cbn [run fold_left]. fold (run cs (step w c)). apply IH.
  destruct w as [acc out]. apply reachable_step. exact H.
Qed.

(** C4, as the code has it: on every account built by the constructor and
    used through the five methods, in any order and with any amounts, the
    balance is never negative after any call: [balance < 0] is false, so that
    [balance >= 0] holds unless the balance has become NaN. *)
Theorem balance_never_negative (acc : BankAccount) :
  reachable acc ->
  py_lt (balance acc) (PyInt 0) = false /\
  (py_ge (balance acc) (PyInt 0) = true \/ balance acc = PyFloat nan).
Proof.
  intros H. destruct (reachable_valid acc H) as [_ Hb].
  split; [exact Hb | apply not_negative_cases, Hb].
Qed.

Lemma balance_never_negative_witness :
  py_lt (PyInt 30000) (PyInt 0) = false /\
  (py_ge (PyInt 30000) (PyInt 0) = true \/ PyInt 30000 = PyFloat nan).
Proof.
  apply (balance_never_negative
           {| __account_number := ObjInt 281207; balance := PyInt 30000 |}).
  assert (self (run [Deposit (PyInt 5000); Withdraw (PyInt 2000)]
                    (fresh {| __account_number := ObjInt 281207; balance := PyInt 27000 |}))
          = {| __account_number := ObjInt 281207; balance := PyInt 30000 |}) as E
      by (vm_compute; reflexivity).
  rewrite <- E. apply reachable_run.
  apply (reachable_init (ObjInt 281207) (PyInt 27000)). vm_compute. reflexivity.
Defined.

(** C4 fails as stated: after [BankAccount(1, 0.0)], [deposit(float("inf"))]
    and [withdraw(float("inf"))] both return [True] and leave the balance
    [nan], for which [balance >= 0] is false. *)
Lemma deposit_withdraw_inf_counterexample :
  exists acc w1 w2,
    __init__ (ObjInt 1) (PyFloat 0) = Return acc /\
    deposit (PyFloat infinity) (fresh acc) = (Return true, w1) /\
    withdraw (PyFloat infinity) w1 = (Return true, w2) /\
    reachable (self w2) /\
    balance (self w2) = PyFloat nan /\
    py_ge (balance (self w2)) (PyInt 0) = false.
Proof.
  eexists. eexists. eexists.
  split; [vm_compute; reflexivity | ].
  split; [vm_compute; reflexivity | ].
  split; [vm_compute; reflexivity | ].
  split.
  - assert (self (run [Deposit (PyFloat infinity); Withdraw (PyFloat infinity)]
                      (fresh {| __account_number := ObjInt 1; balance := PyFloat 0 |}))
            = {| __account_number := ObjInt 1; balance := PyFloat nan |}) as E
        by (vm_compute; reflexivity).
    change (reachable {| __account_number := ObjInt 1; balance := PyFloat nan |}).
    rewrite <- E. apply reachable_run.
    apply (reachable_init (ObjInt 1) (PyFloat 0)). reflexivity.
  - split; vm_compute; reflexivity.
Qed.

(** ** Withdrawing the whole balance *)

(** Two positive finite doubles of the same magnitude cancel to [+0.0]. *)
Lemma SFsub_finite_eq (mx my : positive) (ex ey : Z) :
  -1074 <= ex -> -1074 <= ey -> mag my ey = mag mx ex ->
  SFsub prec emax (S754_finite false mx ex) (S754_finite false my ey) = S754_zero false.
Proof.
  intros Hex Hey Heq. cbn [SFsub cond_Zopp]. set (ez := Z.min ex ey).
  destruct (shl_align_value mx ex ez ltac:(lia)) as [-> _].
  destruct (shl_align_value my ey ez ltac:(lia)) as [-> _].
  pose proof (weight_pos ez ltac:(lia)) as HW.
  assert (weight ex = 2 ^ (ex - ez) * weight ez) as Ex
      by (rewrite <- weight_add by lia; f_equal; lia).
  assert (weight ey = 2 ^ (ey - ez) * weight ez) as Ey
      by (rewrite <- weight_add by lia; f_equal; lia).
  unfold mag in Heq. rewrite Ex, Ey, !Z.mul_assoc in Heq.
  apply Z.mul_reg_r in Heq; [ | lia].
  rewrite Heq, Z.sub_diag. reflexivity.
Qed.

(** A double equal to a positive [int] is positive and finite. *)
Lemma float_equal_Z (z : Z) (f : float) :
  Z_cmp_float z f = Some Eq -> 0 < z ->
  exists m e, Prim2SF f = S754_finite false m e /\ mag m e = z * weight 0.
Proof.
  intros H Hz.
  destruct (Prim2SF f) as [s | s | | [ | ] m e] eqn:E.
  - unfold Z_cmp_float in H. rewrite E in H. apply some_eq in H. order_of H. lia.
  - unfold Z_cmp_float in H. rewrite E in H. destruct s; discriminate.
  - unfold Z_cmp_float in H. rewrite E in H. discriminate.
  - exfalso. unfold Z_cmp_float in H. rewrite E in H. cbv zeta in H.
    cbn [cond_Zopp] in H. apply some_eq in H.
    destruct (Z.leb_spec 0 e) as [He | He]; order_of H.
    + pose proof (scaled_pos m e He). rewrite Z.mul_opp_l in H. lia.
    + pose proof (pow2_pos (- e) ltac:(lia)) as Hp.
      pose proof (Z.mul_pos_pos z (2 ^ (- e)) Hz Hp). lia.
  - exists m, e. split; [reflexivity | ].
    rewrite (Z_cmp_float_mag z f m e E) in H. apply some_eq in H. order_of H.
    symmetry. exact H.
Qed.

(** The doubles a balance [> 0] other than [inf] and an amount equal to it
    convert to: positive, finite, of the same magnitude. *)
Lemma equal_magnitudes (b a : num) (x y : float) :
  py_gt b (PyInt 0) = true -> b <> PyFloat infinity ->
  py_cmp a b = Some Eq ->
  as_double b = Return x -> as_double a = Return y ->
  exists mx ex my ey,
    Prim2SF x = S754_finite false mx ex /\ Prim2SF y = S754_finite false my ey /\
    mag my ey = mag mx ex.
Proof.
  intros Hpos Hfin Heq Hx Hy.
  assert (forall z f, 0 < z -> long_as_double z = Return f ->
            forall g, Z_cmp_float z g = Some Eq ->
            exists mf ef mg eg,
              Prim2SF f = S754_finite false mf ef /\
              Prim2SF g = S754_finite false mg eg /\ mag mg eg = mag mf ef) as Hmixed.
  { intros z f Hz Hf g Hg.
    destruct (long_as_double_spec z f ltac:(lia) Hf)
      as [[E0 _] | [_ (mf & ef & Ef & _ & Hlow & Hup)]]; [lia | ].
    destruct (float_equal_Z z g Hg Hz) as (mg & eg & Eg & Hmag).
    pose proof (Prim2SF_bounded g false mg eg Eg) as Hb.
    exists mf, ef, mg, eg. split; [exact Ef | ]. split; [exact Eg | ].
    apply Z.le_antisymm; [apply Hlow | apply Hup]; try exact Hb; lia. }
  destruct b as [z | f], a as [c | g]; cbn [as_double py_cmp] in *.
  - (* int, int *)
    apply some_eq in Heq. apply Z.compare_eq in Heq. subst c.
    assert (0 < z) as Hz.
    { unfold py_gt in Hpos. cbn [py_cmp] in Hpos.
      destruct (Z.compare_spec z 0); try discriminate; lia. }
    rewrite Hx in Hy. injection Hy as <-.
    destruct (long_as_double_spec z x ltac:(lia) Hx)
      as [[E0 _] | [_ (mf & ef & Ef & _)]]; [lia | ].
    exists mf, ef, mf, ef. repeat split; assumption.
  - (* int balance, float amount *)
    injection Hy as <-.
    assert (0 < z) as Hz.
    { unfold py_gt in Hpos. cbn [py_cmp] in Hpos.
      destruct (Z.compare_spec z 0); try discriminate; lia. }
    destruct (Z_cmp_float z g) as [[ | | ] | ] eqn:Hg; try discriminate.
    destruct (Hmixed z x Hz Hx g Hg) as (mf & ef & mg & eg & Ef & Eg & Hmag).
    exists mf, ef, mg, eg. repeat split; assumption.
  - (* float balance, int amount *)
    injection Hx as <-.
    assert (exists m e, Prim2SF f = S754_finite false m e) as (m & e & Ef).
    { unfold py_gt in Hpos. cbn [py_cmp] in Hpos. rewrite Z_cmp_float_zero in Hpos.
      destruct (Prim2SF f) as [s | [ | ] | | [ | ] m e] eqn:E; try discriminate; eauto.
      exfalso. apply Hfin. f_equal. apply Prim2SF_inj. rewrite E. reflexivity. }
    assert (0 < c) as Hc.
    { rewrite (Z_cmp_float_mag c f m e Ef) in Heq. apply some_eq in Heq. order_of Heq.
      pose proof (weight_pos 0 ltac:(lia)).
      pose proof (mag_pos m e (valid_exponent false m e (Prim2SF_bounded f false m e Ef))).
      destruct (Z.le_gt_cases c 0) as [Hle | Hgt]; [ | exact Hgt].
      pose proof (Z.mul_nonpos_nonneg c (weight 0) Hle ltac:(lia)). lia. }
    destruct (Hmixed c y Hc Hy f Heq) as (mf & ef & mg & eg & Ey & Eg & Hmag).
    exists mg, eg, mf, ef. repeat split; [exact Eg | exact Ey | symmetry; exact Hmag].
  - (* float, float *)
    injection Hx as <-. injection Hy as <-.
    rewrite float_cmp_spec in Heq.
    unfold py_gt in Hpos. cbn [py_cmp] in Hpos. rewrite Z_cmp_float_zero in Hpos.
    destruct (Prim2SF f) as [s | [ | ] | | [ | ] m e] eqn:Ef; try discriminate.
    + exfalso. apply Hfin. f_equal. apply Prim2SF_inj. rewrite Ef. reflexivity.
    + destruct (Prim2SF g) as [s' | [ | ] | | [ | ] m' e'] eqn:Eg;
        cbn [SFcompare] in Heq; try discriminate.
      apply some_eq in Heq.
      destruct (Z.compare_spec e' e) as [-> | | ]; try discriminate.
      rewrite Pos.compare_cont_spec in Heq. cbn [Pos.switch_Eq] in Heq.
      destruct (Pos.compare_spec m' m) as [-> | | ]; cbn [Pos.switch_Eq] in Heq;
        try discriminate.
      exists m, e, m, e. repeat split.
Qed.

(** C9, as the code has it: on an account whose balance is [> 0] and is
    not [inf], a withdrawal of an amount equal to the balance returns [True]
    and leaves a balance of zero ([0] when both are [int]s, [0.0] otherwise),
    whenever Python can evaluate the difference and format the amount (no
    [int] too large for a [float] has to be converted). *)
Theorem withdraw_all
    (acc : BankAccount) (out : list string) (amount b' : num) (s : string) :
  py_gt (balance acc) (PyInt 0) = true ->
  balance acc <> PyFloat infinity ->
  py_cmp amount (balance acc) = Some Eq ->
  py_sub (balance acc) amount = Return b' ->
  format_2f amount = Return s ->
  withdraw amount {| self := acc; stdout := out |}
  = (Return true,
     {| self := {| __account_number := __account_number acc; balance := b' |};
        stdout := (out ++ [("Successfully withdrew: " ++ s)%string])%list |})
  /\ (b' = PyInt 0 \/ b' = PyFloat zero).
Proof.
  intros Hpos Hfin Heq Hsub Hfmt. split.
  - apply withdraw_goes_through; try assumption.
    + unfold py_le. unfold py_gt in Hpos.
      destruct amount as [c | g], (balance acc) as [z | f]; cbn [py_cmp] in *.
      * apply some_eq in Heq. apply Z.compare_eq in Heq. subst c.
        destruct (z ?= 0); congruence.
      * rewrite Z_cmp_float_zero in Hpos.
        destruct (Prim2SF f) as [sf | [ | ] | | [ | ] m e] eqn:Ef; try discriminate.
        -- unfold Z_cmp_float in Heq. rewrite Ef in Heq. discriminate.
        -- rewrite (Z_cmp_float_mag c f m e Ef) in Heq. apply some_eq in Heq.
           order_of Heq.
           pose proof (weight_pos 0 ltac:(lia)).
           pose proof (mag_pos m e (valid_exponent false m e
                                      (Prim2SF_bounded f false m e Ef))).
           destruct (Z.compare_spec c 0) as [-> | Hlt | Hgt]; try reflexivity; exfalso.
           ++ lia.
           ++ pose proof (Z.mul_nonpos_nonneg c (weight 0) ltac:(lia) ltac:(lia)). lia.
      * assert (0 < z) as Hz by (destruct (Z.compare_spec z 0); try discriminate; lia).
        destruct (Z_cmp_float z g) as [[ | | ] | ] eqn:Hg; try discriminate.
        rewrite (float_above_Z 0 g); [reflexivity | | lia].
        destruct (float_equal_Z z g Hg Hz) as (m & e & Eg & _).
        rewrite Z_cmp_float_zero, Eg. reflexivity.
      * rewrite float_cmp_spec in Heq. rewrite Z_cmp_float_zero in *.
        destruct (Prim2SF f) as [sf | [ | ] | | [ | ] m e],
                 (Prim2SF g) as [sg | [ | ] | | [ | ] m' e'];
          cbn in *; try discriminate; reflexivity.
    + unfold py_gt. rewrite Heq. reflexivity.
  - destruct (balance acc) as [z | f] eqn:Eb, amount as [c | g] eqn:Ea.
    + left. cbn [py_sub] in Hsub. cbn [py_cmp] in Heq.
      apply some_eq in Heq. apply Z.compare_eq in Heq. subst c.
      rewrite Z.sub_diag in Hsub. congruence.
    + right. cbn [py_sub as_double obind] in Hsub.
      destruct (long_as_double z) as [x | ] eqn:Ex; [ | discriminate].
      injection Hsub as <-. f_equal.
      destruct (equal_magnitudes (PyInt z) (PyFloat g) x g Hpos Hfin Heq Ex eq_refl)
        as (mx & ex & my & ey & EX & EY & Hmag).
      apply Prim2SF_inj. rewrite sub_spec, EX, EY. unfold SF64sub.
      apply SFsub_finite_eq; [ | | exact Hmag].
      * apply (valid_exponent false mx ex), (Prim2SF_bounded x false mx ex EX).
      * apply (valid_exponent false my ey), (Prim2SF_bounded g false my ey EY).
    + right. cbn [py_sub as_double obind] in Hsub.
      destruct (long_as_double c) as [y | ] eqn:Ey; [ | discriminate].
      injection Hsub as <-. f_equal.
      destruct (equal_magnitudes (PyFloat f) (PyInt c) f y Hpos Hfin Heq eq_refl Ey)
        as (mx & ex & my & ey & EX & EY & Hmag).
      apply Prim2SF_inj. rewrite sub_spec, EX, EY. unfold SF64sub.
      apply SFsub_finite_eq; [ | | exact Hmag].
      * apply (valid_exponent false mx ex), (Prim2SF_bounded f false mx ex EX).
      * apply (valid_exponent false my ey), (Prim2SF_bounded y false my ey EY).
    + right. cbn [py_sub as_double obind] in Hsub.
      injection Hsub as <-. f_equal.
      destruct (equal_magnitudes (PyFloat f) (PyFloat g) f g Hpos Hfin Heq eq_refl eq_refl)
        as (mx & ex & my & ey & EX & EY & Hmag).
      apply Prim2SF_inj. rewrite sub_spec, EX, EY. unfold SF64sub.
      apply SFsub_finite_eq; [ | | exact Hmag].
      * apply (valid_exponent false mx ex), (Prim2SF_bounded f false mx ex EX).
      * apply (valid_exponent false my ey), (Prim2SF_bounded g false my ey EY).
Qed.

Lemma withdraw_all_witness :
  withdraw (PyInt 30000)
    {| self := {| __account_number := ObjInt 281207; balance := PyFloat 30000 |};
       stdout := [] |}
  = (Return true,
     {| self := {| __account_number := ObjInt 281207; balance := PyFloat zero |};
        stdout := ["Successfully withdrew: 30000.00"] |})
  /\ (PyFloat zero = PyInt 0 \/ PyFloat zero = PyFloat zero).
Proof.
  apply (withdraw_all {| __account_number := ObjInt 281207; balance := PyFloat 30000 |}
           [] (PyInt 30000) (PyFloat zero) "30000.00").
  - vm_compute; reflexivity.
  - cbn [balance]. intros E. apply (f_equal format_2f) in E.
    vm_compute in E. discriminate.
  - vm_compute; reflexivity.
  - vm_compute; reflexivity.
  - vm_compute; reflexivity.
Defined.

(** C9 fails as stated: [BankAccount(1, float("inf"))] has a balance [> 0];
    withdrawing exactly that balance returns [True] and leaves [nan], which
    is not zero. *)
Lemma withdraw_all_inf_counterexample :
  exists acc,
    __init__ (ObjInt 1) (PyFloat infinity) = Return acc /\
    py_gt (balance acc) (PyInt 0) = true /\
    withdraw (balance acc) (fresh acc)
    = (Return true,
       {| self := {| __account_number := ObjInt 1; balance := PyFloat nan |};
          stdout := ["Successfully withdrew: inf"] |}) /\
    py_cmp (PyFloat nan) (PyInt 0) <> Some Eq.
Proof.
  eexists. split; [reflexivity | ].
  split; [vm_compute; reflexivity | ].
  split; [vm_compute; reflexivity | ].
  vm_compute. discriminate.
Qed.

(** * Further properties of the methods *)



(** ** What a call that returns [False] has done *)

(** X1: when [deposit] or [withdraw] returns [False], whatever the account
    and the amount, the object is as it was and exactly one line was printed. *)
Theorem refusal_is_atomic (amount : num) (w w' : world) :
  deposit amount w = (Return false, w') \/ withdraw amount w = (Return false, w') ->
  self w' = self w /\ exists line, stdout w' = (stdout w ++ [line])%list.
Proof.
  destruct w as [acc out]. intros [H | H]; revert H; run_method.
  - destruct (py_le amount (PyInt 0)); simpl_world.
    + intros H. injection H as <-. cbn. eauto.
    + destruct (py_add (balance acc) amount); simpl_world; [ | discriminate].
      destruct (format_2f amount); discriminate.
  - destruct (py_le amount (PyInt 0)); simpl_world.
    + intros H. injection H as <-. cbn. eauto.
    + destruct (py_gt amount (balance acc)); simpl_world.
      * destruct (format_2f (balance acc)); [ | discriminate].
        intros H. injection H as <-. cbn. eauto.
      * destruct (py_sub (balance acc) amount); simpl_world; [ | discriminate].
        destruct (format_2f amount); discriminate.
Qed.

Lemma refusal_is_atomic_witness :
  self {| self := {| __account_number := ObjInt 5; balance := PyInt 10 |};
          stdout := ["Error: Insufficient funds. Available balance: 10.00"] |}
  = self (fresh {| __account_number := ObjInt 5; balance := PyInt 10 |}) /\
  exists line,
    stdout {| self := {| __account_number := ObjInt 5; balance := PyInt 10 |};
              stdout := ["Error: Insufficient funds. Available balance: 10.00"] |}
    = (stdout (fresh {| __account_number := ObjInt 5; balance := PyInt 10 |}) ++ [line])%list.
Proof.
  apply (refusal_is_atomic (PyInt 11)). right. vm_compute. reflexivity.
Defined.

(** ** What a call that returns [True] has done *)

(** X2: [deposit] returns [True] only for an amount that is not [<= 0], and
    [withdraw] only for one that is moreover not above the balance; the
    balance stored is then Python's sum (difference), the account number is
    unchanged and exactly one line was printed. *)
Theorem success_means_applied (amount : num) (w w' : world) :
  (deposit amount w = (Return true, w') ->
     py_le amount (PyInt 0) = false /\
     py_add (balance (self w)) amount = Return (balance (self w')) /\
     __account_number (self w') = __account_number (self w) /\
     exists line, stdout w' = (stdout w ++ [line])%list) /\
  (withdraw amount w = (Return true, w') ->
     py_le amount (PyInt 0) = false /\
     py_gt amount (balance (self w)) = false /\
     py_sub (balance (self w)) amount = Return (balance (self w')) /\
     __account_number (self w') = __account_number (self w) /\
     exists line, stdout w' = (stdout w ++ [line])%list).
Proof.
  destruct w as [acc out]. split; run_method.
  - destruct (py_le amount (PyInt 0)); simpl_world; [discriminate | ].
    destruct (py_add (balance acc) amount) as [b' | ]; simpl_world; [ | discriminate].
    destruct (format_2f amount); [ | discriminate].
    intros H. injection H as <-. cbn. eauto 6.
  - destruct (py_le amount (PyInt 0)); simpl_world; [discriminate | ].
    destruct (py_gt amount (balance acc)); simpl_world.
    + destruct (format_2f (balance acc)); discriminate.
    + destruct (py_sub (balance acc) amount) as [b' | ]; simpl_world; [ | discriminate].
      destruct (format_2f amount); [ | discriminate].
      intros H. injection H as <-. cbn. eauto 7.
Qed.

Lemma success_means_applied_witness :
  py_le (PyInt 5000) (PyInt 0) = false /\
  py_add (balance (self (fresh {| __account_number := ObjInt 1; balance := PyFloat 27000 |})))
         (PyInt 5000)
  = Return (balance (self {| self := {| __account_number := ObjInt 1; balance := PyFloat 32000 |};
                             stdout := ["Successfully deposited: 5000.00"] |})) /\
  __account_number (self {| self := {| __account_number := ObjInt 1; balance := PyFloat 32000 |};
                            stdout := ["Successfully deposited: 5000.00"] |})
  = __account_number (self (fresh {| __account_number := ObjInt 1; balance := PyFloat 27000 |})) /\
  exists line,
    stdout {| self := {| __account_number := ObjInt 1; balance := PyFloat 32000 |};
              stdout := ["Successfully deposited: 5000.00"] |}
    = (stdout (fresh {| __account_number := ObjInt 1; balance := PyFloat 27000 |}) ++ [line])%list.
Proof.
  apply (proj1 (success_means_applied (PyInt 5000) _ _)). vm_compute. reflexivity.
Defined.

(** ** What a call that raises has done *)

(** Only [float()] of an [int] raises, and only [OverflowError]. *)
Lemma as_double_raises (n : num) (e : exn) :
  as_double n = Raise e ->
  exists z, n = PyInt z /\ e = OverflowError "int too large to convert to float".
Proof.
  destruct n as [z | f]; cbn [as_double]; [ | discriminate].
  unfold long_as_double.
  destruct (binary_normalize prec emax z 0 false); try discriminate.
  intros H. injection H as <-. eauto.
Qed.

Lemma format_2f_raises (n : num) (e : exn) :
  format_2f n = Raise e ->
  exists z, n = PyInt z /\ e = OverflowError "int too large to convert to float".
Proof.
  unfold format_2f. destruct (as_double n) as [x | e'] eqn:E; cbn [obind]; [discriminate | ].
  intros H. injection H as <-. exact (as_double_raises n e' E).
Qed.

Lemma py_add_raises (b a : num) (e : exn) :
  py_add b a = Raise e -> e = OverflowError "int too large to convert to float".
Proof.
  destruct b as [z | f], a as [c | g]; cbn [py_add as_double obind]; try discriminate.
  - destruct (long_as_double z) as [x | e'] eqn:E; cbn [obind]; [discriminate | ].
    intros H. injection H as <-.
    destruct (as_double_raises (PyInt z) e' E) as (_ & _ & ->). reflexivity.
  - destruct (long_as_double c) as [x | e'] eqn:E; cbn [obind]; [discriminate | ].
    intros H. injection H as <-.
    destruct (as_double_raises (PyInt c) e' E) as (_ & _ & ->). reflexivity.
Qed.

Lemma py_sub_raises (b a : num) (e : exn) :
  py_sub b a = Raise e -> e = OverflowError "int too large to convert to float".
Proof.
  destruct b as [z | f], a as [c | g]; cbn [py_sub as_double obind]; try discriminate.
  - destruct (long_as_double z) as [x | e'] eqn:E; cbn [obind]; [discriminate | ].
    intros H. injection H as <-.
    destruct (as_double_raises (PyInt z) e' E) as (_ & _ & ->). reflexivity.
  - destruct (long_as_double c) as [x | e'] eqn:E; cbn [obind]; [discriminate | ].
    intros H. injection H as <-.
    destruct (as_double_raises (PyInt c) e' E) as (_ & _ & ->). reflexivity.
Qed.

(** When the sum is computed although the amount cannot be formatted, both
    are [int]s. *)
Lemma py_add_unformattable (b a b' : num) (e : exn) :
  py_add b a = Return b' -> format_2f a = Raise e ->
  exists z c, b = PyInt z /\ a = PyInt c /\ b' = PyInt (z + c).
Proof.
  intros Hadd Hfmt. destruct (format_2f_raises a e Hfmt) as (c & -> & _).
  unfold format_2f in Hfmt. cbn [as_double] in Hfmt.
  destruct (long_as_double c) as [x | e'] eqn:E; [discriminate | ].
  destruct b as [z | f]; cbn [py_add as_double obind] in Hadd.
  - injection Hadd as <-. eauto.
  - rewrite E in Hadd. discriminate.
Qed.

Lemma py_sub_unformattable (b a b' : num) (e : exn) :
  py_sub b a = Return b' -> format_2f a = Raise e ->
  exists z c, b = PyInt z /\ a = PyInt c /\ b' = PyInt (z - c).
Proof.
  intros Hsub Hfmt. destruct (format_2f_raises a e Hfmt) as (c & -> & _).
  unfold format_2f in Hfmt. cbn [as_double] in Hfmt.
  destruct (long_as_double c) as [x | e'] eqn:E; [discriminate | ].
  destruct b as [z | f]; cbn [py_sub as_double obind] in Hsub.
  - injection Hsub as <-. eauto.
  - rewrite E in Hsub. discriminate.
Qed.

(** X3: when [deposit] or [withdraw] raises, it raises [OverflowError] and
    has printed nothing; the balance is as it was, unless balance and amount
    are both [int]s, in which case it may already hold the sum (difference):
    the amount is formatted after the balance is updated. *)
Theorem raise_is_overflow (amount : num) (w w' : world) (e : exn) :
  (deposit amount w = (Raise e, w') ->
     e = OverflowError "int too large to convert to float" /\
     stdout w' = stdout w /\
     __account_number (self w') = __account_number (self w) /\
     (balance (self w') = balance (self w) \/
      exists z c, balance (self w) = PyInt z /\ amount = PyInt c /\
                  balance (self w') = PyInt (z + c))) /\
  (withdraw amount w = (Raise e, w') ->
     e = OverflowError "int too large to convert to float" /\
     stdout w' = stdout w /\
     __account_number (self w') = __account_number (self w) /\
     (balance (self w') = balance (self w) \/
      exists z c, balance (self w) = PyInt z /\ amount = PyInt c /\
                  balance (self w') = PyInt (z - c))).
Proof.
  destruct w as [acc out]. split; run_method.
  - destruct (py_le amount (PyInt 0)); simpl_world; [discriminate | ].
    destruct (py_add (balance acc) amount) as [b' | e1] eqn:Hadd; simpl_world.
    + destruct (format_2f amount) as [s | e2] eqn:Hfmt; [discriminate | ].
      intros H. injection H as <- <-. cbn.
      destruct (format_2f_raises amount e2 Hfmt) as (_ & _ & ->).
      repeat split. right. exact (py_add_unformattable _ _ _ _ Hadd Hfmt).
    + intros H. injection H as <- <-. cbn.
      rewrite (py_add_raises _ _ _ Hadd). repeat split. left. reflexivity.
  - destruct (py_le amount (PyInt 0)); simpl_world; [discriminate | ].
    destruct (py_gt amount (balance acc)); simpl_world.
    + destruct (format_2f (balance acc)) as [s | e1] eqn:Hfmt; [discriminate | ].
      intros H. injection H as <- <-. cbn.
      destruct (format_2f_raises _ e1 Hfmt) as (_ & _ & ->).
      repeat split. left. reflexivity.
    + destruct (py_sub (balance acc) amount) as [b' | e1] eqn:Hsub; simpl_world.
      * destruct (format_2f amount) as [s | e2] eqn:Hfmt; [discriminate | ].
        intros H. injection H as <- <-. cbn.
        destruct (format_2f_raises amount e2 Hfmt) as (_ & _ & ->).
        repeat split. right. exact (py_sub_unformattable _ _ _ _ Hsub Hfmt).
      * intros H. injection H as <- <-. cbn.
        rewrite (py_sub_raises _ _ _ Hsub). repeat split. left. reflexivity.
Qed.

Lemma raise_is_overflow_witness :
  OverflowError "int too large to convert to float"
  = OverflowError "int too large to convert to float" /\
  stdout {| self := {| __account_number := ObjInt 1; balance := PyInt (10 ^ 400) |};
            stdout := [] |}
  = stdout (fresh {| __account_number := ObjInt 1; balance := PyInt 0 |}) /\
  __account_number (self {| self := {| __account_number := ObjInt 1;
                                       balance := PyInt (10 ^ 400) |};
                            stdout := [] |})
  = __account_number (self (fresh {| __account_number := ObjInt 1; balance := PyInt 0 |})) /\
  (balance (self {| self := {| __account_number := ObjInt 1; balance := PyInt (10 ^ 400) |};
                    stdout := [] |})
   = balance (self (fresh {| __account_number := ObjInt 1; balance := PyInt 0 |})) \/
   exists z c,
     balance (self (fresh {| __account_number := ObjInt 1; balance := PyInt 0 |})) = PyInt z /\
     PyInt (10 ^ 400) = PyInt c /\
     balance (self {| self := {| __account_number := ObjInt 1; balance := PyInt (10 ^ 400) |};
                      stdout := [] |})
     = PyInt (z + c)).
Proof.
  apply (proj1 (raise_is_overflow (PyInt (10 ^ 400)) _ _ _)). vm_compute. reflexivity.
Defined.

(** ** Numbers of ordinary size never make a method raise *)







(** ** An account that holds nothing pays nothing *)

Lemma Prim2SF_nan (f : float) : Prim2SF f = S754_nan -> f = nan.
Proof. intros E. apply Prim2SF_inj. rewrite E. reflexivity. Qed.

(** Every amount that passes the first guard and is not NaN is above a
    balance equal to zero. *)
Lemma above_zero_balance (a b : num) :
  py_cmp b (PyInt 0) = Some Eq -> a <> PyFloat nan ->
  py_le a (PyInt 0) = false -> py_gt a b = true.
Proof.
  unfold py_le, py_gt. intros Hb Hnan.
  destruct a as [c | g], b as [z | f]; cbn [py_cmp] in *.
  - apply some_eq in Hb. apply Z.compare_eq in Hb. subst z.
    destruct (c ?= 0); congruence.
  - rewrite Z_cmp_float_zero in Hb. unfold Z_cmp_float.
    destruct (Prim2SF f) as [s | [ | ] | | [ | ] m e]; cbn in Hb; try discriminate.
    destruct (c ?= 0); congruence.
  - apply some_eq in Hb. apply Z.compare_eq in Hb. subst z.
    destruct (Z_cmp_float 0 g) as [[ | | ] | ] eqn:Eg; cbn; try congruence.
    exfalso. apply Hnan. f_equal. apply Prim2SF_nan.
    rewrite Z_cmp_float_zero in Eg.
    destruct (Prim2SF g) as [s | [ | ] | | [ | ] m e]; try discriminate. reflexivity.
  - rewrite Z_cmp_float_zero in *. rewrite float_cmp_spec.
    destruct (Prim2SF f) as [s | [ | ] | | [ | ] m e]; try discriminate.
    destruct (Prim2SF g) as [s' | [ | ] | | [ | ] m' e'] eqn:Eg; cbn; try congruence.
    exfalso. apply Hnan. f_equal. apply Prim2SF_nan, Eg.
Qed.

Lemma format_zero_balance (b : num) :
  py_cmp b (PyInt 0) = Some Eq -> exists s, format_2f b = Return s.
Proof.
  destruct b as [z | f]; cbn [py_cmp]; intros H.
  - apply some_eq in H. apply Z.compare_eq in H. subst z. eexists. reflexivity.
  - unfold format_2f. cbn. eauto.
Qed.

Lemma withdraw_from_nothing (acc : BankAccount) (out : list string) (amount : num) :
  py_cmp (balance acc) (PyInt 0) = Some Eq -> amount <> PyFloat nan ->
  exists line,
    withdraw amount {| self := acc; stdout := out |}
    = (Return false, {| self := acc; stdout := (out ++ [line])%list |}).
Proof.
  intros Hb Hnan. run_method.
  destruct (py_le amount (PyInt 0)) eqn:Hle; simpl_world; [eauto | ].
  rewrite (above_zero_balance amount (balance acc) Hb Hnan Hle). simpl_world.
  destruct (format_zero_balance (balance acc) Hb) as [s ->]. eauto.
Qed.

(** X5: on an account whose balance equals zero ([0], [0.0] or [-0.0]),
    every withdrawal of an amount other than NaN returns [False], prints one
    line and leaves the object as it was. *)
Theorem empty_account_pays_nothing
    (acc : BankAccount) (out : list string) (amount : num) :
  py_cmp (balance acc) (PyInt 0) = Some Eq -> amount <> PyFloat nan ->
  exists line,
    withdraw amount {| self := acc; stdout := out |}
    = (Return false, {| self := acc; stdout := (out ++ [line])%list |}).
Proof. exact (withdraw_from_nothing acc out amount). Qed.

Lemma empty_account_pays_nothing_witness :
  exists line,
    withdraw (PyFloat 0.5)
      {| self := {| __account_number := ObjInt 5; balance := PyInt 0 |}; stdout := [] |}
    = (Return false,
       {| self := {| __account_number := ObjInt 5; balance := PyInt 0 |};
          stdout := ([] ++ [line])%list |}).
Proof.
  apply (empty_account_pays_nothing {| __account_number := ObjInt 5; balance := PyInt 0 |}
           [] (PyFloat 0.5)).
  - vm_compute. reflexivity.
  - intros E. apply (f_equal format_2f) in E. vm_compute in E. discriminate.
Defined.

(** X6: [BankAccount(n)], with the default balance, is built exactly when
    [n] is a positive [int]; it holds [0.0] and refuses every withdrawal of
    an amount other than NaN. *)
Theorem default_account_is_empty (account_number : pyobj) :
  (is_positive_int account_number = true ->
   construct account_number None
   = Return {| __account_number := account_number; balance := PyFloat zero |} /\
   forall out amount, amount <> PyFloat nan ->
     exists line,
       withdraw amount {| self := {| __account_number := account_number;
                                     balance := PyFloat zero |};
                          stdout := out |}
       = (Return false,
          {| self := {| __account_number := account_number; balance := PyFloat zero |};
             stdout := (out ++ [line])%list |})) /\
  (is_positive_int account_number = false ->
   construct account_number None
   = Raise (ValueError "Account number must be a positive integer")).
Proof.
  unfold construct. rewrite init_cases. split; intros ->.
  - split; [reflexivity | ]. intros out amount Hnan.
    apply withdraw_from_nothing; [reflexivity | exact Hnan].
  - reflexivity.
Qed.

(** ** NaN *)

Lemma add_nan_l (y : float) : (nan + y)%float = nan.
Proof.
  apply Prim2SF_inj. rewrite add_spec.
  change (Prim2SF nan) with S754_nan. reflexivity.
Qed.

Lemma add_nan_r (x : float) : (x + nan)%float = nan.
Proof.
  apply Prim2SF_inj. rewrite add_spec.
  change (Prim2SF nan) with S754_nan. unfold SF64add.
  destruct (Prim2SF x) as [s | s | | s m e]; reflexivity.
Qed.

Lemma sub_nan_l (y : float) : (nan - y)%float = nan.
Proof.
  apply Prim2SF_inj. rewrite sub_spec.
  change (Prim2SF nan) with S754_nan. reflexivity.
Qed.

Lemma py_gt_nan (a : num) : py_gt a (PyFloat nan) = false.
Proof.
  unfold py_gt. destruct a as [c | g]; cbn [py_cmp].
  - reflexivity.
  - rewrite float_cmp_spec. change (Prim2SF nan) with S754_nan.
    destruct (Prim2SF g) as [s | s | | s m e]; reflexivity.
Qed.

(** X7: the guard [amount <= 0] lets NaN through: [deposit(float("nan"))]
    returns [True] and leaves a NaN balance, on every balance that converts to
    [float]. *)
Theorem deposit_nan_is_accepted (acc : BankAccount) (out : list string) (x : float) :
  as_double (balance acc) = Return x ->
  deposit (PyFloat nan) {| self := acc; stdout := out |}
  = (Return true,
     {| self := {| __account_number := __account_number acc; balance := PyFloat nan |};
        stdout := (out ++ ["Successfully deposited: nan"])%list |}).
Proof.
  intros Hx. run_method.
  change (py_le (PyFloat nan) (PyInt 0)) with false. simpl_world.
  assert (py_add (balance acc) (PyFloat nan) = Return (PyFloat nan)) as ->.
  { destruct (balance acc) as [z | f]; cbn [py_add as_double obind] in *.
    - rewrite Hx. cbn [obind]. rewrite add_nan_r. reflexivity.
    - rewrite add_nan_r. reflexivity. }
  reflexivity.
Qed.

Lemma deposit_nan_is_accepted_witness :
  deposit (PyFloat nan)
    {| self := {| __account_number := ObjInt 1; balance := PyInt 100 |}; stdout := [] |}
  = (Return true,
     {| self := {| __account_number := ObjInt 1; balance := PyFloat nan |};
        stdout := ([] ++ ["Successfully deposited: nan"])%list |}).
Proof.
  apply (deposit_nan_is_accepted {| __account_number := ObjInt 1; balance := PyInt 100 |}
           [] 100%float).
  vm_compute. reflexivity.
Defined.

Lemma step_keeps_nan (c : call) (w : world) :
  balance (self w) = PyFloat nan -> balance (self (step w c)) = PyFloat nan.
Proof.
  destruct w as [acc out]. cbn [self]. intros Hb.
  destruct c.
  - unfold step, invoke. run_method.
    destruct (py_le amount (PyInt 0)); simpl_world; [exact Hb | ].
    destruct (py_add (balance acc) amount) as [b' | ] eqn:Hadd; simpl_world;
      [ | exact Hb].
    assert (b' = PyFloat nan) as ->.
    { rewrite Hb in Hadd. cbn [py_add as_double obind] in Hadd.
      destruct (as_double amount) as [y | ]; cbn [obind] in Hadd; [ | discriminate].
      rewrite add_nan_l in Hadd. congruence. }
    destruct (format_2f amount); reflexivity.
  - unfold step, invoke. run_method.
    destruct (py_le amount (PyInt 0)); simpl_world; [exact Hb | ].
    rewrite Hb, py_gt_nan. simpl_world.
    destruct (py_sub (PyFloat nan) amount) as [b' | ] eqn:Hsub; simpl_world;
      [ | exact Hb].
    assert (b' = PyFloat nan) as ->.
    { cbn [py_sub as_double obind] in Hsub.
      destruct (as_double amount) as [y | ]; cbn [obind] in Hsub; [ | discriminate].
      rewrite sub_nan_l in Hsub. congruence. }
    destruct (format_2f amount); reflexivity.
  - rewrite (inquiry_keeps_self CheckBalance); [exact Hb | reflexivity].
  - rewrite (inquiry_keeps_self GetAccountNumber); [exact Hb | reflexivity].
  - rewrite (inquiry_keeps_self Repr); [exact Hb | reflexivity].
Qed.

(** X8: once the balance is NaN, no sequence of calls changes it. *)
Theorem nan_balance_is_permanent (cs : list call) (w : world) :
  balance (self w) = PyFloat nan -> balance (self (run cs w)) = PyFloat nan.
Proof.
  revert w. induction cs as [ | c cs IH]; intros w H; [exact H | ].
  cbn [run fold_left]. fold (run cs (step w c)). apply IH, step_keeps_nan, H.
Qed.

Lemma nan_balance_is_permanent_witness :
  balance (self (run [Deposit (PyInt 50); Withdraw (PyFloat 1)]
                     (fresh {| __account_number := ObjInt 1; balance := PyFloat nan |})))
  = PyFloat nan.
Proof.
  apply (nan_balance_is_permanent [Deposit (PyInt 50); Withdraw (PyFloat 1)]
           (fresh {| __account_number := ObjInt 1; balance := PyFloat nan |})).
  reflexivity.
Defined.

(** ** The account number, from the constructor to the accessor *)

Lemma run_keeps_account_number (cs : list call) (w : world) :
  __account_number (self (run cs w)) = __account_number (self w).
Proof.
  revert w. induction cs as [ | c cs IH]; intros w; [reflexivity | ].
  cbn [run fold_left]. fold (run cs (step w c)).
  rewrite IH. apply step_keeps_account_number.
Qed.

(** X9: after a successful construction and any sequence of calls,
    [get_account_number()] returns the very object given to the constructor,
    a positive [int], and changes nothing. *)
Theorem account_number_round_trip
    (account_number : pyobj) (initial : num) (acc : BankAccount) (cs : list call) :
  construct account_number (Some initial) = Return acc ->
  get_account_number (run cs (fresh acc)) = (Return account_number, run cs (fresh acc)) /\
  is_positive_int account_number = true.
Proof.
  unfold construct. rewrite init_cases.
  destruct (is_positive_int account_number); [ | discriminate].
  destruct (py_lt initial (PyInt 0)); [discriminate | ].
  intros H. injection H as <-. split; [ | reflexivity].
  unfold get_account_number, bind, get_self, ret.
  rewrite run_keeps_account_number. reflexivity.
Qed.

Lemma account_number_round_trip_witness :
  get_account_number
    (run [Deposit (PyInt 5000); Withdraw (PyInt 2000)]
         (fresh {| __account_number := ObjInt 281207; balance := PyInt 27000 |}))
  = (Return (ObjInt 281207),
     run [Deposit (PyInt 5000); Withdraw (PyInt 2000)]
         (fresh {| __account_number := ObjInt 281207; balance := PyInt 27000 |})) /\
  is_positive_int (ObjInt 281207) = true.
Proof.
  apply (account_number_round_trip (ObjInt 281207) (PyInt 27000)).
  vm_compute. reflexivity.
Defined.

(** ** A deposit undone by a withdrawal *)

(** X10: on an account whose balance is an [int] that is not negative,
    depositing an [int] amount [> 0] that [.2f] can format and withdrawing it
    again both return [True] and restore the object. *)
Theorem deposit_then_withdraw_restores
    (acc : BankAccount) (out : list string) (z a : Z) (s : string) :
  balance acc = PyInt z -> 0 <= z -> 0 < a ->
  format_2f (PyInt a) = Return s ->
  exists w1,
    deposit (PyInt a) {| self := acc; stdout := out |} = (Return true, w1) /\
    balance (self w1) = PyInt (z + a) /\
    withdraw (PyInt a) w1
    = (Return true,
       {| self := acc;
          stdout := (out ++ [("Successfully deposited: " ++ s)%string;
                             ("Successfully withdrew: " ++ s)%string])%list |}).
Proof.
  intros Hb Hz Ha Hfmt. destruct acc as [n b]. cbn [balance] in Hb. subst b.
  assert (py_le (PyInt a) (PyInt 0) = false) as Hle.
  { unfold py_le. cbn [py_cmp]. destruct (Z.compare_spec a 0); try reflexivity; lia. }
  assert (py_gt (PyInt a) (PyInt (z + a)) = false) as Hgt.
  { unfold py_gt. cbn [py_cmp]. destruct (Z.compare_spec a (z + a)); try reflexivity; lia. }
  eexists. split; [ | split].
  - run_method. rewrite Hle. simpl_world. cbn [py_add]. simpl_world.
    rewrite Hfmt. reflexivity.
  - reflexivity.
  - run_method. rewrite Hle. simpl_world. rewrite Hgt. cbn [py_sub]. simpl_world.
    rewrite Hfmt. replace (z + a - a) with z by lia.
    rewrite <- app_assoc. reflexivity.
Qed.

Lemma deposit_then_withdraw_restores_witness :
  exists w1,
    deposit (PyInt 5000)
      {| self := {| __account_number := ObjInt 1; balance := PyInt 27000 |}; stdout := [] |}
    = (Return true, w1) /\
    balance (self w1) = PyInt (27000 + 5000) /\
    withdraw (PyInt 5000) w1
    = (Return true,
       {| self := {| __account_number := ObjInt 1; balance := PyInt 27000 |};
          stdout := ([] ++ [("Successfully deposited: " ++ "5000.00")%string;
                            ("Successfully withdrew: " ++ "5000.00")%string])%list |}).
Proof.
  apply (deposit_then_withdraw_restores
           {| __account_number := ObjInt 1; balance := PyInt 27000 |} [] 27000 5000 "5000.00").
  - reflexivity.
  - lia.
  - lia.
  - vm_compute. reflexivity.
Defined.

(** ** The kind of the balance *)

Lemma step_keeps_float (c : call) (w : world) :
  is_float (balance (self w)) = true -> is_float (balance (self (step w c))) = true.
Proof.
  destruct w as [acc out]. cbn [self]. intros Hb.
  destruct (balance acc) as [z | f] eqn:Eb; [discriminate | ].
  destruct c.
  - unfold step, invoke. run_method.
    destruct (py_le amount (PyInt 0)); simpl_world; [rewrite Eb; reflexivity | ].
    rewrite Eb. destruct amount as [c | g]; cbn [py_add as_double obind].
    + destruct (long_as_double c); cbn [obind]; simpl_world; [ | rewrite Eb; reflexivity].
      destruct (format_2f (PyInt c)); reflexivity.
    + simpl_world. destruct (format_2f (PyFloat g)); reflexivity.
  - unfold step, invoke. run_method.
    destruct (py_le amount (PyInt 0)); simpl_world; [rewrite Eb; reflexivity | ].
    rewrite Eb. destruct (py_gt amount (PyFloat f)); simpl_world.
    + destruct (format_2f (PyFloat f)); simpl_world; rewrite Eb; reflexivity.
    + destruct amount as [c | g]; cbn [py_sub as_double obind].
      * destruct (long_as_double c); cbn [obind]; simpl_world; [ | rewrite Eb; reflexivity].
        destruct (format_2f (PyInt c)); reflexivity.
      * simpl_world. destruct (format_2f (PyFloat g)); reflexivity.
  - rewrite (inquiry_keeps_self CheckBalance); [cbn; rewrite Eb | ]; reflexivity.
  - rewrite (inquiry_keeps_self GetAccountNumber); [cbn; rewrite Eb | ]; reflexivity.
  - rewrite (inquiry_keeps_self Repr); [cbn; rewrite Eb | ]; reflexivity.
Qed.

Lemma step_keeps_int (c : call) (w : world) :
  int_amount c = true ->
  is_float (balance (self w)) = false -> is_float (balance (self (step w c))) = false.
Proof.
  destruct w as [acc out]. cbn [self]. intros Hc Hb.
  destruct (balance acc) as [z | f] eqn:Eb; [ | discriminate].
  destruct c.
  - destruct amount as [c | g]; [ | discriminate].
    unfold step, invoke. run_method.
    destruct (py_le (PyInt c) (PyInt 0)); simpl_world; [rewrite Eb; reflexivity | ].
    rewrite Eb. cbn [py_add]. simpl_world. destruct (format_2f (PyInt c)); reflexivity.
  - destruct amount as [c | g]; [ | discriminate].
    unfold step, invoke. run_method.
    destruct (py_le (PyInt c) (PyInt 0)); simpl_world; [rewrite Eb; reflexivity | ].
    rewrite Eb. destruct (py_gt (PyInt c) (PyInt z)); simpl_world.
    + destruct (format_2f (PyInt z)); simpl_world; rewrite Eb; reflexivity.
    + cbn [py_sub]. simpl_world. destruct (format_2f (PyInt c)); reflexivity.
  - rewrite (inquiry_keeps_self CheckBalance); [cbn; rewrite Eb | ]; reflexivity.
  - rewrite (inquiry_keeps_self GetAccountNumber); [cbn; rewrite Eb | ]; reflexivity.
  - rewrite (inquiry_keeps_self Repr); [cbn; rewrite Eb | ]; reflexivity.
Qed.

(** X11: a [float] balance stays a [float] whatever is called; an [int]
    balance stays an [int] as long as every amount is an [int]. *)
Theorem balance_kind (cs : list call) (w : world) :
  (is_float (balance (self w)) = true ->
   is_float (balance (self (run cs w))) = true) /\
  (is_float (balance (self w)) = false -> forallb int_amount cs = true ->
   is_float (balance (self (run cs w))) = false).
Proof.
  revert w. induction cs as [ | c cs IH]; intros w.
  - split; intros; assumption.
  - cbn [run fold_left forallb]. fold (run cs (step w c)).
    destruct (IH (step w c)) as [IHf IHi]. split.
    + intros H. apply IHf, step_keeps_float, H.
    + intros H Hcs. apply andb_true_iff in Hcs as [Hc Hcs].
      apply IHi; [apply step_keeps_int; assumption | exact Hcs].
Qed.

(** ** The output only grows *)

Lemma step_appends (c : call) (w : world) :
  exists lines, stdout (step w c) = (stdout w ++ lines)%list /\ (List.length lines <= 2)%nat.
Proof.
  destruct w as [acc out]. destruct c; unfold step, invoke; run_method.
  - destruct (py_le amount (PyInt 0)); simpl_world;
      [exists ["Error: Deposit amount must be positive"]; split; [reflexivity | cbn; lia] | ].
    destruct (py_add (balance acc) amount); simpl_world;
      [ | exists []; split; [symmetry; apply app_nil_r | cbn; lia]].
    destruct (format_2f amount); cbn [snd stdout];
      [eexists [_]; split; [reflexivity | cbn; lia]
      | exists []; split; [symmetry; apply app_nil_r | cbn; lia]].
  - destruct (py_le amount (PyInt 0)); simpl_world;
      [exists ["Error: Withdrawal amount must be positive"]; split; [reflexivity | cbn; lia] | ].
    destruct (py_gt amount (balance acc)); simpl_world.
    + destruct (format_2f (balance acc)); cbn [snd stdout];
        [eexists [_]; split; [reflexivity | cbn; lia]
        | exists []; split; [symmetry; apply app_nil_r | cbn; lia]].
    + destruct (py_sub (balance acc) amount); simpl_world;
        [ | exists []; split; [symmetry; apply app_nil_r | cbn; lia]].
      destruct (format_2f amount); cbn [snd stdout];
        [eexists [_]; split; [reflexivity | cbn; lia]
        | exists []; split; [symmetry; apply app_nil_r | cbn; lia]].
  - destruct (format_2f (balance acc)); cbn [snd stdout].
    + eexists [_; _]. split; [rewrite <- app_assoc; reflexivity | cbn; lia].
    + eexists [_]. split; [reflexivity | cbn; lia].
  - exists []. split; [symmetry; apply app_nil_r | cbn; lia].
  - destruct (format_2f (balance acc)); cbn [snd stdout];
      exists []; (split; [symmetry; apply app_nil_r | cbn; lia]).
Qed.

(** X12: no call removes or alters a line already printed, and a call
    prints at most two lines. *)
Theorem output_only_grows (cs : list call) (w : world) :
  exists lines,
    stdout (run cs w) = (stdout w ++ lines)%list /\
    (List.length lines <= 2 * List.length cs)%nat.
Proof.
  revert w. induction cs as [ | c cs IH]; intros w.
  - exists []. split; [symmetry; apply app_nil_r | cbn; lia].
  - cbn [run fold_left]. fold (run cs (step w c)).
    destruct (step_appends c w) as (l1 & E1 & H1).
    destruct (IH (step w c)) as (l2 & E2 & H2).
    exists (l1 ++ l2)%list. split.
    + rewrite E2, E1, app_assoc. reflexivity.
    + rewrite List.length_app. cbn [List.length]. lia.
Qed.

(** ** What the inquiries show *)


